(** * Authelia: verification of the server routing table, the password-policy
      validator and the OAuth 2.0 revocation handler

    The development embeds the Go sources
      - internal/configuration/validator/password_policy.go
      - internal/handlers/handler_oauth_revocation.go
      - internal/server (handlerError, handlerNotFound, getHandler)
    and, for the components the specification describes but whose code lives
    in other packages, models written from the specification (each one is
    marked as such).

    Layout: Part I holds every definition, Part II the statements about
    the specification's claims, Part III further properties of the code. *)

From Stdlib Require Import ZArith List String Ascii Bool Lia DecimalString.
From stdpp Require Import base option gmap strings list.
Import ListNotations.

Local Open Scope string_scope.
Local Open Scope list_scope.
Local Open Scope Z_scope.

(* ===================================================================== *)
(** * Part I.  Definitions                                                 *)
(* ===================================================================== *)

(** ** Go runtime helpers *)

(** [fmt]'s [%d] verb on an [int]. *)
Definition fmt_d (n : Z) : string := NilZero.string_of_int (Z.to_int n).

(** A Go [error] built by [fmt.Errorf] is represented by its message. *)
Definition error := string.

(* --------------------------------------------------------------------- *)
(** ** package schema (the declarations the embedded code reads)           *)
(* --------------------------------------------------------------------- *)

Module schema.

Module PasswordPolicyStandardParams.
Record t := mk {
  Enabled : bool;
  MinLength : Z;
  MaxLength : Z;
  RequireUppercase : bool;
  RequireLowercase : bool;
  RequireNumber : bool;
  RequireSpecial : bool
}.
Definition with_MinLength (v : Z) (p : t) : t :=
  mk (Enabled p) v (MaxLength p) (RequireUppercase p) (RequireLowercase p)
     (RequireNumber p) (RequireSpecial p).
Definition with_MaxLength (v : Z) (p : t) : t :=
  mk (Enabled p) (MinLength p) v (RequireUppercase p) (RequireLowercase p)
     (RequireNumber p) (RequireSpecial p).
End PasswordPolicyStandardParams.

Module PasswordPolicyZXCVBNParams.
Record t := mk { Enabled : bool }.
End PasswordPolicyZXCVBNParams.

Record PasswordPolicyConfiguration := mkPasswordPolicyConfiguration {
  Standard : PasswordPolicyStandardParams.t;
  ZXCVBN : PasswordPolicyZXCVBNParams.t
}.

Definition with_Standard (s : PasswordPolicyStandardParams.t)
    (c : PasswordPolicyConfiguration) : PasswordPolicyConfiguration :=
  mkPasswordPolicyConfiguration s (ZXCVBN c).

(** [schema.StructValidator]: the two lists behind [Errors()] and
    [Warnings()]; [Push] appends to the first. *)
Record StructValidator := mkStructValidator {
  Errors : list error;
  Warnings : list error
}.

Definition NewStructValidator : StructValidator := mkStructValidator [] [].

Definition Push (e : error) (v : StructValidator) : StructValidator :=
  mkStructValidator (Errors v ++ [e]) (Warnings v).

(** *** [schema.Configuration], the fields [getHandler] reads

    A [url.URL] is represented by the text its [String()] method returns. *)

Record SessionConfiguration := mkSessionConfiguration {
  Name : string;
  RememberMeDuration : string
}.

Record PasswordResetAuthenticationBackendConfiguration := mkPasswordReset {
  CustomURL : string
}.

Record AuthenticationBackendConfiguration := mkAuthenticationBackend {
  DisableResetPassword : bool;
  PasswordReset : PasswordResetAuthenticationBackendConfiguration
}.

Record DuoAPIConfiguration := mkDuoAPIConfiguration {
  Hostname : string;
  IntegrationKey : string;
  SecretKey : string;
  EnableSelfEnrollment : bool
}.

Record ServerTLSConfiguration := mkServerTLS {
  Certificate : string;
  Key : string
}.

Record ServerConfiguration := mkServerConfiguration {
  Path : string;
  AssetPath : string;
  EnablePprof : bool;
  EnableExpvars : bool;
  TLS : ServerTLSConfiguration
}.

Module TOTPConfiguration.
Record t := mk { Disable : bool }.
End TOTPConfiguration.

Module WebauthnConfiguration.
Record t := mk { Disable : bool }.
End WebauthnConfiguration.

Record OpenIDConnectCORSConfiguration := mkOpenIDConnectCORS {
  Endpoints : list string;
  AllowedOrigins : list string
}.

Record OpenIDConnectConfiguration := mkOpenIDConnectConfiguration {
  CORS : OpenIDConnectCORSConfiguration
}.

Record IdentityProvidersConfiguration := mkIdentityProviders {
  OIDC : OpenIDConnectConfiguration
}.

(** [DuoAPI] is a pointer in Go: [None] is nil. *)
Record Configuration := mkConfiguration {
  Theme : string;
  Server : ServerConfiguration;
  Session : SessionConfiguration;
  AuthenticationBackend : AuthenticationBackendConfiguration;
  TOTP : TOTPConfiguration.t;
  Webauthn : WebauthnConfiguration.t;
  DuoAPI : option DuoAPIConfiguration;
  IdentityProviders : IdentityProvidersConfiguration
}.

End schema.

(* --------------------------------------------------------------------- *)
(** ** package validator: password_policy.go                               *)
(* --------------------------------------------------------------------- *)

Module validator.
Import schema.
Module Std := schema.PasswordPolicyStandardParams.
Module Zx := schema.PasswordPolicyZXCVBNParams.

(** Message constants of the package (const.go is outside the embedded
    sources); their text is the one password_policy_test.go expects. *)
Definition errPasswordPolicyMultipleDefined : string :=
  "password_policy: only a single password policy mechanism can be specified".

Definition errFmtPasswordPolicyMinLengthNotGreaterThanZero (n : Z) : string :=
  "password_policy: standard: option 'min_length' must be greater than 0 but is configured as "
  +:+ fmt_d n.

Section ValidatePasswordPolicy.

(** [utils.IsBoolCountLessThanN] and
    [schema.DefaultPasswordPolicyConfiguration] are declared in packages
    that are not part of the embedded sources: both are parameters. *)
Variable IsBoolCountLessThanN : Z -> bool -> list bool -> bool.
Variable DefaultPasswordPolicyConfiguration : PasswordPolicyConfiguration.

(** The Go function mutates [*config] and [*validator]; here both are
    threaded through and returned. *)
Definition ValidatePasswordPolicy (config : PasswordPolicyConfiguration)
    (validator : StructValidator) : PasswordPolicyConfiguration * StructValidator :=
  let validator :=
    if negb (IsBoolCountLessThanN 1 true
               [Std.Enabled (Standard config); Zx.Enabled (ZXCVBN config)])
    then Push errPasswordPolicyMultipleDefined validator
    else validator in
  if Std.Enabled (Standard config) then
    let '(config, validator) :=
      if Std.MinLength (Standard config) =? 0 then
        (with_Standard
           (Std.with_MinLength
              (Std.MinLength (Standard DefaultPasswordPolicyConfiguration))
              (Standard config)) config,
         validator)
      else if Std.MinLength (Standard config) <? 0 then
        (config,
         Push (errFmtPasswordPolicyMinLengthNotGreaterThanZero
                 (Std.MinLength (Standard config))) validator)
      else (config, validator) in
    let config :=
      if Std.MaxLength (Standard config) =? 0 then
        with_Standard
          (Std.with_MaxLength
             (Std.MaxLength (Standard DefaultPasswordPolicyConfiguration))
             (Standard config)) config
      else config in
    (config, validator)
  else (config, validator).

(** The errors one call appends to the validator, in order: at most the
    "multiple mechanisms" error followed by at most the "min_length" error
    (used to state what [ValidatePasswordPolicy] pushes). *)
Definition pushedErrors (config : PasswordPolicyConfiguration) : list error :=
  (if negb (IsBoolCountLessThanN 1 true
              [Std.Enabled (Standard config); Zx.Enabled (ZXCVBN config)])
   then [errPasswordPolicyMultipleDefined] else [])
  ++
  (if Std.Enabled (Standard config) && (Std.MinLength (Standard config) <? 0)
   then [errFmtPasswordPolicyMinLengthNotGreaterThanZero
           (Std.MinLength (Standard config))]
   else []).

End ValidatePasswordPolicy.

(** Instances of the two parameters, used to replay the table of
    password_policy_test.go.  [countBools] counts the values equal to [v];
    the test table needs "one mechanism" accepted and "two" rejected. *)
Definition countBools (v : bool) (vals : list bool) : Z :=
  Z.of_nat (List.length (List.filter (Bool.eqb v) vals)).

Definition IsBoolCountLessThanN_inst (n : Z) (v : bool) (vals : list bool) : bool :=
  countBools v vals <=? n.

Definition DefaultPasswordPolicyConfiguration_inst : PasswordPolicyConfiguration :=
  mkPasswordPolicyConfiguration
    (Std.mk false 8 0 false false false false) (Zx.mk false).

End validator.

(* --------------------------------------------------------------------- *)
(** ** package handlers: handler_oauth_revocation.go                       *)
(* --------------------------------------------------------------------- *)

Module fosite.

(** [fosite.RFC6749Error] as far as the handler looks at it:
    [GetDescription] is a method of the library. *)
Record RFC6749Error := mkRFC6749Error { GetDescription : string }.

Section OAuth2Provider.
Variable Request : Type.

(** The two methods of [fosite.OAuth2Provider] the handler calls.
    [NewRevocationRequest] returns a Go [error] ([None] is [nil]); its
    context argument is left to the provider value.
    [WriteRevocationResponse] only has an effect and is an event below. *)
Record OAuth2Provider := mkOAuth2Provider {
  NewRevocationRequest : Request -> option error
}.

End OAuth2Provider.
Arguments NewRevocationRequest {Request}.
Arguments mkOAuth2Provider {Request}.

End fosite.

Module middlewares.

Section Providers.
Variable Request : Type.

(** [ctx.Providers.OpenIDConnect.Fosite] is an interface value and may be
    nil ([None]). *)
Record OpenIDConnectProvider := mkOpenIDConnectProvider {
  Fosite : option (fosite.OAuth2Provider Request)
}.

Record Providers := mkProviders {
  OpenIDConnect : OpenIDConnectProvider
}.

End Providers.
Arguments mkOpenIDConnectProvider {Request}.
Arguments Fosite {Request}.
Arguments mkProviders {Request}.
Arguments OpenIDConnect {Request}.

(** [middlewares.AutheliaCtx], reduced to what the embedded handler reaches
    through it; [ctx.Logger] is the sink of the log events. *)
Module AutheliaCtx.
Record t (Request : Type) := mk { Providers : Providers Request }.
Arguments mk {Request}.
Arguments Providers {Request}.
End AutheliaCtx.

End middlewares.

Module handlers.
Import middlewares.

Section OAuthRevocation.
Variables Request ResponseWriter : Type.

(** [fosite.ErrorToRFC6749Error], a function of the library. *)
Variable ErrorToRFC6749Error : error -> fosite.RFC6749Error.

(** What a run of the handler does to the outside, in order. *)
Inductive Event :=
| CallNewRevocationRequest (req : Request)
| LoggerErrorf (msg : string)
| CallWriteRevocationResponse (rw : ResponseWriter) (err : option error).

Definition theFosite (ctx : AutheliaCtx.t Request)
    : option (fosite.OAuth2Provider Request) :=
  Fosite (OpenIDConnect (AutheliaCtx.Providers ctx)).

(** Effects are collected by a writer monad; [None] is a Go panic (a method
    call through a nil interface). *)
Definition M (A : Type) : Type := option (A * list Event).

Definition ret {A} (a : A) : M A := Some (a, []).

Definition bind {A B} (m : M A) (k : A -> M B) : M B :=
  match m with
  | None => None
  | Some (a, t1) =>
      match k a with
      | None => None
      | Some (b, t2) => Some (b, t1 ++ t2)
      end
  end.

Definition emit (e : Event) : M unit := Some (tt, [e]).

Definition panic {A} : M A := None.

Definition callNewRevocationRequest (ctx : AutheliaCtx.t Request)
    (req : Request) : M (option error) :=
  match theFosite ctx with
  | None => panic
  | Some p =>
      bind (emit (CallNewRevocationRequest req))
           (fun _ => ret (fosite.NewRevocationRequest p req))
  end.

Definition callWriteRevocationResponse (ctx : AutheliaCtx.t Request)
    (rw : ResponseWriter) (err : option error) : M unit :=
  match theFosite ctx with
  | None => panic
  | Some _ => emit (CallWriteRevocationResponse rw err)
  end.

Definition OAuthRevocationPOST (ctx : AutheliaCtx.t Request) (rw : ResponseWriter)
    (req : Request) : M unit :=
  bind (callNewRevocationRequest ctx req) (fun err =>
  bind (match err with
        | Some e =>
            let rfc := ErrorToRFC6749Error e in
            emit (LoggerErrorf ("Revocation Request failed with error: "
                                  +:+ fosite.GetDescription rfc))
        | None => ret tt
        end) (fun _ =>
  callWriteRevocationResponse ctx rw err)).

(** The log line of the error branch, [Errorf]'s format applied. *)
Definition revocationLogLine (e : error) : string :=
  "Revocation Request failed with error: "
  +:+ fosite.GetDescription (ErrorToRFC6749Error e).

(** Number of responses written in a trace. *)
Definition responsesWritten (t : list Event) : nat :=
  List.length (List.filter
                 (fun e => match e with
                           | CallWriteRevocationResponse _ _ => true
                           | _ => false
                           end) t).

End OAuthRevocation.

Arguments CallNewRevocationRequest {Request ResponseWriter}.
Arguments LoggerErrorf {Request ResponseWriter}.
Arguments CallWriteRevocationResponse {Request ResponseWriter}.
Arguments theFosite {Request}.
Arguments OAuthRevocationPOST {Request ResponseWriter}.
Arguments responsesWritten {Request ResponseWriter}.

End handlers.

(* --------------------------------------------------------------------- *)
(** ** Go's [strings] package, the functions the server code calls         *)
(* --------------------------------------------------------------------- *)

Module gostrings.

(** [strings.Split(s, sep)] for a separator of one byte (the call site
    passes [","]): the pieces between the occurrences of [sep], always at
    least one piece. *)
Fixpoint Split (s : string) (sep : ascii) : list string :=
  match s with
  | EmptyString => [EmptyString]
  | String c s' =>
      if Ascii.eqb c sep then EmptyString :: Split s' sep
      else match Split s' sep with
           | piece :: rest => String c piece :: rest
           | [] => [String c EmptyString]
           end
  end.

Fixpoint inCutset (c : ascii) (cutset : string) : bool :=
  match cutset with
  | EmptyString => false
  | String d cutset' => Ascii.eqb c d || inCutset c cutset'
  end.

Fixpoint TrimLeft (s cutset : string) : string :=
  match s with
  | EmptyString => EmptyString
  | String c s' => if inCutset c cutset then TrimLeft s' cutset else s
  end.

Fixpoint TrimRight (s cutset : string) : string :=
  match s with
  | EmptyString => EmptyString
  | String c s' =>
      match TrimRight s' cutset with
      | EmptyString => if inCutset c cutset then EmptyString
                       else String c EmptyString
      | r => String c r
      end
  end.

(** [strings.Trim(s, cutset)] for a cutset of ASCII bytes. *)
Definition Trim (s cutset : string) : string :=
  TrimRight (TrimLeft s cutset) cutset.

Definition lowerByte (c : ascii) : ascii :=
  let n := N_of_ascii c in
  if ((65 <=? n) && (n <=? 90))%N then ascii_of_N (n + 32) else c.

(** [strings.ToLower] on the bytes of an ASCII string. *)
Fixpoint ToLower (s : string) : string :=
  match s with
  | EmptyString => EmptyString
  | String c s' => String (lowerByte c) (ToLower s')
  end.

Definition HasPrefix (s prefix : string) : bool := String.prefix prefix s.

End gostrings.

(* --------------------------------------------------------------------- *)
(** ** package server: handlerError                                        *)
(* --------------------------------------------------------------------- *)

Module fasthttp.

Definition StatusBadRequest : Z := 400.
Definition StatusNotFound : Z := 404.
Definition StatusMethodNotAllowed : Z := 405.
Definition StatusRequestTimeout : Z := 408.
Definition StatusRequestHeaderFieldsTooLarge : Z := 431.

Inductive Method :=
| GET | HEAD | POST | PUT | PATCH | DELETE | CONNECT | OPTIONS | TRACE.

Definition Method_eqb (a b : Method) : bool :=
  match a, b with
  | GET, GET | HEAD, HEAD | POST, POST | PUT, PUT | PATCH, PATCH
  | DELETE, DELETE | CONNECT, CONNECT | OPTIONS, OPTIONS | TRACE, TRACE => true
  | _, _ => false
  end.

(** [fasthttp.RequestCtx] as the server code reads it.
    [XForwardedFor] is [ctx.Request.Header.PeekBytes("X-Forwarded-For")]
    ([None] is the nil slice of an absent header), [RemoteIP] the text of
    [ctx.RemoteIP()], the address of the peer of the connection, [Path] the
    text of [ctx.Path()]. *)
Record RequestCtx := mkRequestCtx {
  ReqMethod : Method;
  Path : string;
  RequestURI : string;
  XForwardedFor : option string;
  RemoteIP : string
}.

End fasthttp.

(* --------------------------------------------------------------------- *)
(** ** Vocabulary of the specification                                     *)
(* --------------------------------------------------------------------- *)

Module core.

(** [factor_level], an ordered enumeration (section 3). *)
Inductive FactorLevel := LevelNone | First | Second.

Definition levelRank (l : FactorLevel) : Z :=
  match l with LevelNone => 0 | First => 1 | Second => 2 end.

Definition level_leb (a b : FactorLevel) : bool := levelRank a <=? levelRank b.

(** The error taxonomy (section 7). *)
Inductive ErrorKind :=
| Unauthenticated | InsufficientFactor | MethodDisabled
| InvalidOrExpiredToken | ExternalDenied | Timeout
| StoreUnavailable | MalformedRequest.

(** The second-factor methods. *)
Inductive Method2FA := TOTP | WebAuthn | Duo.

End core.

(* --------------------------------------------------------------------- *)
(** ** github.com/fasthttp/router, the part the server configures          *)
(* --------------------------------------------------------------------- *)

Module router.

Section Router.
(** The type of request handlers. *)
Variable H : Type.

Record Route := mkRoute {
  routeMethod : fasthttp.Method;
  routePath : string;
  routeHandler : H
}.

(** Registered routes in registration order, and the exported fields of
    [router.Router] the server sets or relies on. *)
Record Router := mkRouter {
  routes : list Route;
  RedirectTrailingSlash : bool;
  RedirectFixedPath : bool;
  HandleMethodNotAllowed : bool;
  HandleOPTIONS : bool;
  NotFound : option H;
  MethodNotAllowed : option H
}.

(** [router.New()]. *)
Definition New : Router := mkRouter [] true true true true None None.

Definition Handle (method : fasthttp.Method) (path : string) (handler : H)
    (r : Router) : Router :=
  mkRouter (routes r ++ [mkRoute method path handler])
           (RedirectTrailingSlash r) (RedirectFixedPath r)
           (HandleMethodNotAllowed r) (HandleOPTIONS r)
           (NotFound r) (MethodNotAllowed r).

(** The calls [r.GET(path, handler)], [r.HEAD], [r.POST] and [r.OPTIONS],
    as the registrations they make; [register] performs a sequence of such
    calls in order. *)
Definition GET (path : string) (handler : H) : Route :=
  mkRoute fasthttp.GET path handler.
Definition HEAD (path : string) (handler : H) : Route :=
  mkRoute fasthttp.HEAD path handler.
Definition POST (path : string) (handler : H) : Route :=
  mkRoute fasthttp.POST path handler.
Definition OPTIONS (path : string) (handler : H) : Route :=
  mkRoute fasthttp.OPTIONS path handler.

Definition register (calls : list Route) (r : Router) : Router :=
  List.fold_left
    (fun r c => Handle (routeMethod c) (routePath c) (routeHandler c) r)
    calls r.

Definition set_NotFound (h : H) (r : Router) : Router :=
  mkRouter (routes r) (RedirectTrailingSlash r) (RedirectFixedPath r)
           (HandleMethodNotAllowed r) (HandleOPTIONS r) (Some h)
           (MethodNotAllowed r).

Definition set_HandleMethodNotAllowed (b : bool) (r : Router) : Router :=
  mkRouter (routes r) (RedirectTrailingSlash r) (RedirectFixedPath r)
           b (HandleOPTIONS r) (NotFound r) (MethodNotAllowed r).

Definition set_MethodNotAllowed (h : H) (r : Router) : Router :=
  mkRouter (routes r) (RedirectTrailingSlash r) (RedirectFixedPath r)
           (HandleMethodNotAllowed r) (HandleOPTIONS r) (NotFound r) (Some h).

(** The handler registered for a method and a path written exactly as the
    request has it (first registration; the library refuses a second one
    for the same method and path). *)
Definition lookupRoute (method : fasthttp.Method) (path : string)
    (rs : list Route) : option H :=
  option_map routeHandler
    (List.find (fun rt => fasthttp.Method_eqb (routeMethod rt) method
                          && String.eqb (routePath rt) path) rs).

(** *** Which handler a request reaches

    The matching of the library is modelled for the requests it decides
    without its parameter matcher and without a redirect; for the others
    [Handler] answers [None] and nothing is stated about them. *)

Fixpoint beforeBrace (pattern : string) : string :=
  match pattern with
  | EmptyString => EmptyString
  | String c rest => if Ascii.eqb c "{" then EmptyString
                     else String c (beforeBrace rest)
  end.

Fixpoint hasBrace (pattern : string) : bool :=
  match pattern with
  | EmptyString => false
  | String c rest => Ascii.eqb c "{" || hasBrace rest
  end.

Definition stripSlash (s : string) : string := gostrings.TrimRight s "/".

(** A route with parameters may capture every path that continues the
    literal text in front of its first parameter. *)
Definition mayCapture (pattern path : string) : bool :=
  hasBrace pattern
  && gostrings.HasPrefix path (stripSlash (beforeBrace pattern)).

(** The two redirects ([RedirectTrailingSlash], [RedirectFixedPath]) can
    only fire for a path that equals one registered for the method of the
    request up to letter case and a trailing slash. *)
Definition mayRedirectTo (pattern path : string) : bool :=
  String.eqb (gostrings.ToLower (stripSlash pattern))
             (gostrings.ToLower (stripSlash path)).

Fixpoint hasSubstring (needle s : string) : bool :=
  match s with
  | EmptyString => String.prefix needle s
  | String _ rest => String.prefix needle s || hasSubstring needle rest
  end.

(** A path [CleanPath] leaves as it is. *)
Definition isCleanPath (path : string) : bool :=
  String.prefix "/" path
  && negb (hasSubstring "//" path) && negb (hasSubstring "/." path).

Definition related (pattern path : string) : bool :=
  mayCapture pattern path || mayRedirectTo pattern path.

(** Where a request ends up: at a handler, or at one of the answers the
    library gives by itself. *)
Inductive Routed :=
| ToHandler (h : H)
| OptionsReply
| DefaultMethodNotAllowed
| DefaultNotFound.

(** [allowed(path, reqMethod)] is not empty. *)
Definition allowed (r : Router) (reqMethod : fasthttp.Method) (path : string) : bool :=
  List.existsb
    (fun rt => negb (fasthttp.Method_eqb (routeMethod rt) reqMethod)
               && negb (fasthttp.Method_eqb (routeMethod rt) fasthttp.OPTIONS)
               && String.eqb (routePath rt) path)
    (routes r).

Definition Handler (r : Router) (ctx : fasthttp.RequestCtx) : option Routed :=
  let path := fasthttp.Path ctx in
  let method := fasthttp.ReqMethod ctx in
  if negb (isCleanPath path) then None
  else if List.existsb (fun rt => mayCapture (routePath rt) path) (routes r)
  then None
  else
    match lookupRoute method path (routes r) with
    | Some h => Some (ToHandler h)
    | None =>
        if List.existsb
             (fun rt => fasthttp.Method_eqb (routeMethod rt) method
                        && mayRedirectTo (routePath rt) path)
             (routes r)
        then None
        else
          let notFound := match NotFound r with
                          | Some h => ToHandler h
                          | None => DefaultNotFound
                          end in
          if fasthttp.Method_eqb method fasthttp.OPTIONS && HandleOPTIONS r
          then Some (if allowed r method path then OptionsReply else notFound)
          else if HandleMethodNotAllowed r && allowed r method path
          then Some (match MethodNotAllowed r with
                     | Some h => ToHandler h
                     | None => DefaultMethodNotAllowed
                     end)
          else Some notFound
    end.

End Router.

Arguments mkRoute {H}.
Arguments routeMethod {H}.
Arguments routePath {H}.
Arguments routeHandler {H}.
Arguments mkRouter {H}.
Arguments routes {H}.
Arguments HandleMethodNotAllowed {H}.
Arguments HandleOPTIONS {H}.
Arguments NotFound {H}.
Arguments MethodNotAllowed {H}.
Arguments New {H}.
Arguments Handle {H}.
Arguments GET {H}.
Arguments HEAD {H}.
Arguments POST {H}.
Arguments OPTIONS {H}.
Arguments register {H}.
Arguments set_NotFound {H}.
Arguments set_HandleMethodNotAllowed {H}.
Arguments set_MethodNotAllowed {H}.
Arguments lookupRoute {H}.
Arguments ToHandler {H}.
Arguments OptionsReply {H}.
Arguments DefaultMethodNotAllowed {H}.
Arguments DefaultNotFound {H}.
Arguments allowed {H}.
Arguments Handler {H}.

End router.

Module server.
Import fasthttp.

Definition getRemoteIP (ctx : RequestCtx) : string :=
  match XForwardedFor ctx with
  | Some hdr =>
      let ips := gostrings.Split hdr "," in
      if (0 <? List.length ips)%nat
      then gostrings.Trim (List.nth 0 ips "") " "
      else RemoteIP ctx
  | None => RemoteIP ctx
  end.

(** The dynamic type of the [err] handed to the error handler. *)
Inductive HandlerErr :=
| ErrSmallBuffer
| OpError (timeout : bool)
| OtherError.

(** [handlerError()]: the trace line logged and the arguments of
    [ctx.Error]. *)
Definition handlerError (ctx : RequestCtx) (err : HandlerErr)
    : string * (string * Z) :=
  match err with
  | ErrSmallBuffer =>
      ("Request was too large to handle from client " +:+ getRemoteIP ctx
       +:+ ". Response Code " +:+ fmt_d StatusRequestHeaderFieldsTooLarge +:+ ".",
       ("request header too large", StatusRequestHeaderFieldsTooLarge))
  | OpError true =>
      ("Request timeout occurred while handling from client " +:+ getRemoteIP ctx
       +:+ ": " +:+ RequestURI ctx
       +:+ ". Response Code " +:+ fmt_d StatusRequestTimeout +:+ ".",
       ("request timeout", StatusRequestTimeout))
  | OpError false | OtherError =>
      ("An unknown error occurred while handling a request from client "
       +:+ getRemoteIP ctx +:+ ": " +:+ RequestURI ctx
       +:+ ". Response Code " +:+ fmt_d StatusBadRequest +:+ ".",
       ("error when parsing request", StatusBadRequest))
  end.

(** *** The requirement of the specification on address derivation

    Written after the specification's words, to be compared with
    [getRemoteIP]: with [hops] trusted forwarding hops only the peer
    address and the last [hops] entries of the forwarding header were
    written by trusted parties; every earlier entry is client supplied. *)
Definition forwardedChain (ctx : RequestCtx) : list string :=
  match XForwardedFor ctx with
  | Some hdr => List.map (fun ip => gostrings.Trim ip " ") (gostrings.Split hdr ",")
  | None => []
  end.

Definition lastEntries {A} (n : nat) (l : list A) : list A :=
  List.skipn (List.length l - n) l.

Definition trustedAddresses (hops : nat) (ctx : RequestCtx) : list string :=
  RemoteIP ctx :: lastEntries hops (forwardedChain ctx).

Definition respectsTrustedHops (hops : nat) (ctx : RequestCtx) (addr : string) : Prop :=
  In addr (trustedAddresses hops ctx).

(** The text of a header value before its first comma. *)
Fixpoint beforeFirstComma (s : string) : string :=
  match s with
  | EmptyString => EmptyString
  | String c s' => if Ascii.eqb c "," then EmptyString
                   else String c (beforeFirstComma s')
  end.

(** *** Request handlers as values

    A Go closure is represented by the expression that builds it; the
    functions of packages [handlers], [middlewares], [pprofhandler] and
    [expvarhandler] stand for themselves. *)

(** [time.Second], in nanoseconds. *)
Definition time_Second : Z := 1000000000.

(** The value [middlewares.TimingAttackDelay] returns, by its arguments. *)
Inductive TimingDelayFunc :=
| TimingAttackDelay (arg1 arg2 arg3 : Z) (arg4 : Z).

(** [duo.NewDuoAPI(duoapi.NewDuoApi(ikey, skey, host, userAgent, opts...))];
    [insecure] records the option [duoapi.SetInsecure()]. *)
Record DuoAPI := NewDuoAPI {
  ikey : string; skey : string; host : string; userAgent : string;
  insecure : bool
}.

(** Handler functions of package [handlers] with the signature of
    [middlewares.RequestHandler]. *)
Inductive HandlerFunc :=
| HealthGET | StateGET | ConfigurationGET | PasswordPolicyConfigurationGet
| CheckSafeRedirectionPOST | LogoutPOST
| ResetPasswordIdentityStart | ResetPasswordIdentityFinish | ResetPasswordPOST
| UserInfoGET | UserInfoPOST | MethodPreferencePOST
| UserTOTPInfoGET | TOTPIdentityStart | TOTPIdentityFinish
| TimeBasedOneTimePasswordPOST
| WebauthnIdentityStart | WebauthnIdentityFinish | WebauthnAttestationPOST
| WebauthnAssertionGET | WebauthnAssertionPOST
| DuoDevicePOST
| OpenIDConnectConsentGET | OpenIDConnectConsentPOST
| OpenIDConnectConfigurationWellKnownGET
| OAuthAuthorizationServerWellKnownGET | JSONWebKeySetGET.

(** Handler functions of package [handlers] with the [net/http] style
    signature, registered through [NewHTTPToAutheliaHandlerAdaptor]. *)
Inductive HTTPHandlerFunc :=
| OpenIDConnectAuthorizationGET | OpenIDConnectTokenPOST
| OpenIDConnectUserinfo | OAuthIntrospectionPOST | OAuthRevocationPOST.

(** Values of type [middlewares.RequestHandler]. *)
Inductive RequestHandler :=
| Func (fn : HandlerFunc)
| VerifyGET (cfg : schema.AuthenticationBackendConfiguration)
| FirstFactorPOST (delayFunc : TimingDelayFunc)
| DuoDevicesGET (duoAPI : DuoAPI)
| DuoPOST (duoAPI : DuoAPI)
| Require1FA (next : RequestHandler)
| NewHTTPToAutheliaHandlerAdaptor (h : HTTPHandlerFunc)
| ServeTemplatedFile (publicDir file assetPath duoSelfEnrollment rememberMe
                      resetPassword resetPasswordCustomURL session theme : string)
                     (https : bool).

(** A [middlewares.CORSPolicy], by the builder calls that made it. *)
Inductive CORSOption :=
| WithAllowedMethods (methods : list string)
| WithAllowedOrigins (origins : list string)
| WithAllowCredentials (b : bool)
| WithEnabled (b : bool).

Definition CORSPolicy := list CORSOption.

(** Values of type [fasthttp.RequestHandler].  [middleware] is the local
    variable of [getHandler], [middlewares.AutheliaMiddleware(config,
    providers)]. *)
Inductive FastHandler :=
| middleware (next : RequestHandler)
| handlerPublicHTML
| handlerLocales
| AssetOverrideMiddleware (root : string) (strip : Z) (next : FastHandler)
| HandleOPTIONS (policy : CORSPolicy)
| HandleOnlyOPTIONS (policy : CORSPolicy)
| Middleware (policy : CORSPolicy) (next : FastHandler)
| PprofHandler
| ExpvarHandler
| handlerNotFound (next : FastHandler)
| handlerMethodNotAllowed.

(** *** Package constants declared outside the embedded sources *)

Record HTTPServerDir := mkHTTPServerDir { name : string; prefix : string }.

Record Consts := mkConsts {
  (* package server *)
  embeddedAssets : string;
  swaggerAssets : string;
  apiFile : string;
  indexFile : string;
  rootFiles : list string;
  swaggerFiles : list string;
  httpServerDirs : list HTTPServerDir;
  dev : string;
  f : string;
  (* package schema *)
  RememberMeDisabled : string;
  (* package oidc *)
  WellKnownOpenIDConfigurationPath : string;
  WellKnownOAuthAuthorizationServerPath : string;
  JWKsPath : string;
  AuthorizationPath : string;
  TokenPath : string;
  UserinfoPath : string;
  IntrospectionPath : string;
  RevocationPath : string;
  AuthorizationEndpoint : string;
  TokenEndpoint : string;
  UserinfoEndpoint : string;
  IntrospectionEndpoint : string;
  RevocationEndpoint : string
}.

Definition FormatBool (b : bool) : string := if b then "true" else "false".

Definition IsStringInSlice (needle : string) (haystack : list string) : bool :=
  List.existsb (String.eqb needle) haystack.

(** [a != b] on Go strings. *)
Definition strNe (a b : string) : bool := negb (String.eqb a b).

Abbreviation Router := (router.Router FastHandler).

Section getHandler.
Context {Request : Type}.
Variable K : Consts.
(** [os.Getenv("ENVIRONMENT")]. *)
Variable ENVIRONMENT : string.

(** Lines 84 to 299 of [getHandler]: the router it configures.  The calls
    on [r] are collected in source order ([calls]) and made by
    [router.register]; a [for] loop is a [map], a guarded block contributes
    its calls or none. *)
Definition getRouter (config : schema.Configuration)
    (providers : middlewares.Providers Request) : Router :=
  let rememberMe :=
    FormatBool (strNe (schema.RememberMeDuration (schema.Session config))
                      (RememberMeDisabled K)) in
  let resetPassword :=
    FormatBool (negb (schema.DisableResetPassword (schema.AuthenticationBackend config))) in
  let resetPasswordCustomURL :=
    schema.CustomURL (schema.PasswordReset (schema.AuthenticationBackend config)) in
  let duoSelfEnrollment :=
    match schema.DuoAPI config with
    | Some duo => FormatBool (schema.EnableSelfEnrollment duo)
    | None => f K
    end in
  let https :=
    strNe (schema.Key (schema.TLS (schema.Server config))) ""
    && strNe (schema.Certificate (schema.TLS (schema.Server config))) "" in
  let assetPath := schema.AssetPath (schema.Server config) in
  let serveIndexHandler :=
    ServeTemplatedFile (embeddedAssets K) (indexFile K) assetPath duoSelfEnrollment
      rememberMe resetPassword resetPasswordCustomURL
      (schema.Name (schema.Session config)) (schema.Theme config) https in
  let serveSwaggerHandler :=
    ServeTemplatedFile (swaggerAssets K) (indexFile K) assetPath duoSelfEnrollment
      rememberMe resetPassword resetPasswordCustomURL
      (schema.Name (schema.Session config)) (schema.Theme config) https in
  let serveSwaggerAPIHandler :=
    ServeTemplatedFile (swaggerAssets K) (apiFile K) assetPath duoSelfEnrollment
      rememberMe resetPassword resetPasswordCustomURL
      (schema.Name (schema.Session config)) (schema.Theme config) https in
  let policyCORSPublicGET :=
    [WithAllowedMethods ["OPTIONS"; "GET"]; WithAllowedOrigins ["*"]] in
  let delayFunc := TimingAttackDelay 10 250 85 time_Second in
  let r := router.New in
  let calls :=
    (* Static Assets. *)
    [ router.GET "/" (middleware serveIndexHandler) ]
    ++ List.map (fun file => router.GET ("/" +:+ file) handlerPublicHTML)
                (rootFiles K)
    ++ [ router.GET "/favicon.ico"
           (AssetOverrideMiddleware assetPath 0 handlerPublicHTML);
         router.GET "/static/media/logo.png"
           (AssetOverrideMiddleware assetPath 2 handlerPublicHTML);
         router.GET "/static/{filepath:*}" handlerPublicHTML;
         (* Locales. *)
         router.GET
           "/locales/{language:[a-z]{1,3}}-{variant:[a-zA-Z0-9-]+}/{namespace:[a-z]+}.json"
           (AssetOverrideMiddleware assetPath 0 handlerLocales);
         router.GET "/locales/{language:[a-z]{1,3}}/{namespace:[a-z]+}.json"
           (AssetOverrideMiddleware assetPath 0 handlerLocales);
         (* Swagger. *)
         router.GET "/api/" (middleware serveSwaggerHandler);
         router.OPTIONS "/api/" (HandleOPTIONS policyCORSPublicGET);
         router.GET ("/api/" +:+ apiFile K)
           (Middleware policyCORSPublicGET (middleware serveSwaggerAPIHandler));
         router.OPTIONS ("/api/" +:+ apiFile K) (HandleOPTIONS policyCORSPublicGET) ]
    ++ List.map (fun file => router.GET ("/api/" +:+ file) handlerPublicHTML)
                (swaggerFiles K)
    ++ [ router.GET "/api/health" (middleware (Func HealthGET));
         router.GET "/api/state" (middleware (Func StateGET));
         router.GET "/api/configuration"
           (middleware (Require1FA (Func ConfigurationGET)));
         router.GET "/api/configuration/password-policy"
           (middleware (Func PasswordPolicyConfigurationGet));
         router.GET "/api/verify"
           (middleware (VerifyGET (schema.AuthenticationBackend config)));
         router.HEAD "/api/verify"
           (middleware (VerifyGET (schema.AuthenticationBackend config)));
         router.POST "/api/checks/safe-redirection"
           (middleware (Func CheckSafeRedirectionPOST));
         router.POST "/api/firstfactor" (middleware (FirstFactorPOST delayFunc));
         router.POST "/api/logout" (middleware (Func LogoutPOST)) ]
    (* Only register endpoints if forgot password is not disabled. *)
    ++ (if negb (schema.DisableResetPassword (schema.AuthenticationBackend config))
           && String.eqb
                (schema.CustomURL
                   (schema.PasswordReset (schema.AuthenticationBackend config)))
                ""
        then
          [ router.POST "/api/reset-password/identity/start"
              (middleware (Func ResetPasswordIdentityStart));
            router.POST "/api/reset-password/identity/finish"
              (middleware (Func ResetPasswordIdentityFinish));
            router.POST "/api/reset-password" (middleware (Func ResetPasswordPOST)) ]
        else [])
    (* Information about the user. *)
    ++ [ router.GET "/api/user/info" (middleware (Require1FA (Func UserInfoGET)));
         router.POST "/api/user/info" (middleware (Require1FA (Func UserInfoPOST)));
         router.POST "/api/user/info/2fa_method"
           (middleware (Require1FA (Func MethodPreferencePOST))) ]
    ++ (if negb (schema.TOTPConfiguration.Disable (schema.TOTP config)) then
          (* TOTP related endpoints. *)
          [ router.GET "/api/user/info/totp"
              (middleware (Require1FA (Func UserTOTPInfoGET)));
            router.POST "/api/secondfactor/totp/identity/start"
              (middleware (Require1FA (Func TOTPIdentityStart)));
            router.POST "/api/secondfactor/totp/identity/finish"
              (middleware (Require1FA (Func TOTPIdentityFinish)));
            router.POST "/api/secondfactor/totp"
              (middleware (Require1FA (Func TimeBasedOneTimePasswordPOST))) ]
        else [])
    ++ (if negb (schema.WebauthnConfiguration.Disable (schema.Webauthn config)) then
          (* Webauthn Endpoints. *)
          [ router.POST "/api/secondfactor/webauthn/identity/start"
              (middleware (Require1FA (Func WebauthnIdentityStart)));
            router.POST "/api/secondfactor/webauthn/identity/finish"
              (middleware (Require1FA (Func WebauthnIdentityFinish)));
            router.POST "/api/secondfactor/webauthn/attestation"
              (middleware (Require1FA (Func WebauthnAttestationPOST)));
            router.GET "/api/secondfactor/webauthn/assertion"
              (middleware (Require1FA (Func WebauthnAssertionGET)));
            router.POST "/api/secondfactor/webauthn/assertion"
              (middleware (Require1FA (Func WebauthnAssertionPOST))) ]
        else [])
    (* Configure DUO api endpoint only if configuration exists. *)
    ++ match schema.DuoAPI config with
       | Some duo =>
           let duoAPI :=
             if String.eqb ENVIRONMENT (dev K) then
               NewDuoAPI (schema.IntegrationKey duo) (schema.SecretKey duo)
                         (schema.Hostname duo) "" true
             else
               NewDuoAPI (schema.IntegrationKey duo) (schema.SecretKey duo)
                         (schema.Hostname duo) "" false in
           [ router.GET "/api/secondfactor/duo_devices"
               (middleware (Require1FA (DuoDevicesGET duoAPI)));
             router.POST "/api/secondfactor/duo"
               (middleware (Require1FA (DuoPOST duoAPI)));
             router.POST "/api/secondfactor/duo_device"
               (middleware (Require1FA (Func DuoDevicePOST))) ]
       | None => []
       end
    ++ (if schema.EnablePprof (schema.Server config)
        then [ router.GET "/debug/pprof/{name?}" PprofHandler ] else [])
    ++ (if schema.EnableExpvars (schema.Server config)
        then [ router.GET "/debug/vars" ExpvarHandler ] else [])
    ++ match middlewares.Fosite (middlewares.OpenIDConnect providers) with
       | Some _ =>
           let cors := schema.CORS (schema.OIDC (schema.IdentityProviders config)) in
           let allowedOrigins := schema.AllowedOrigins cors in
           let policyCORSAuthorization :=
             [WithAllowedMethods ["OPTIONS"; "GET"];
              WithAllowedOrigins allowedOrigins;
              WithEnabled (IsStringInSlice (AuthorizationEndpoint K)
                             (schema.Endpoints cors))] in
           let policyCORSToken :=
             [WithAllowCredentials true;
              WithAllowedMethods ["OPTIONS"; "POST"];
              WithAllowedOrigins allowedOrigins;
              WithEnabled (IsStringInSlice (TokenEndpoint K) (schema.Endpoints cors))] in
           let policyCORSUserinfo :=
             [WithAllowCredentials true;
              WithAllowedMethods ["OPTIONS"; "GET"; "POST"];
              WithAllowedOrigins allowedOrigins;
              WithEnabled (IsStringInSlice (UserinfoEndpoint K)
                             (schema.Endpoints cors))] in
           let policyCORSIntrospection :=
             [WithAllowCredentials true;
              WithAllowedMethods ["OPTIONS"; "POST"];
              WithAllowedOrigins allowedOrigins;
              WithEnabled (IsStringInSlice (IntrospectionEndpoint K)
                             (schema.Endpoints cors))] in
           let policyCORSRevocation :=
             [WithAllowCredentials true;
              WithAllowedMethods ["OPTIONS"; "POST"];
              WithAllowedOrigins allowedOrigins;
              WithEnabled (IsStringInSlice (RevocationEndpoint K)
                             (schema.Endpoints cors))] in
           [ router.GET "/api/oidc/consent" (middleware (Func OpenIDConnectConsentGET));
             router.POST "/api/oidc/consent" (middleware (Func OpenIDConnectConsentPOST));
             router.OPTIONS (WellKnownOpenIDConfigurationPath K)
               (HandleOPTIONS policyCORSPublicGET);
             router.GET (WellKnownOpenIDConfigurationPath K)
               (Middleware policyCORSPublicGET
                  (middleware (Func OpenIDConnectConfigurationWellKnownGET)));
             router.OPTIONS (WellKnownOAuthAuthorizationServerPath K)
               (HandleOPTIONS policyCORSPublicGET);
             router.GET (WellKnownOAuthAuthorizationServerPath K)
               (Middleware policyCORSPublicGET
                  (middleware (Func OAuthAuthorizationServerWellKnownGET)));
             router.OPTIONS (JWKsPath K) (HandleOPTIONS policyCORSPublicGET);
             router.GET (JWKsPath K)
               (Middleware policyCORSPublicGET (middleware (Func JSONWebKeySetGET)));
             router.OPTIONS "/api/oidc/jwks" (HandleOPTIONS policyCORSPublicGET);
             router.GET "/api/oidc/jwks"
               (Middleware policyCORSPublicGET (middleware (Func JSONWebKeySetGET)));
             router.OPTIONS (AuthorizationPath K)
               (HandleOnlyOPTIONS policyCORSAuthorization);
             router.GET (AuthorizationPath K)
               (middleware (NewHTTPToAutheliaHandlerAdaptor OpenIDConnectAuthorizationGET));
             router.OPTIONS "/api/oidc/authorize"
               (HandleOnlyOPTIONS policyCORSAuthorization);
             router.GET "/api/oidc/authorize"
               (middleware (NewHTTPToAutheliaHandlerAdaptor OpenIDConnectAuthorizationGET));
             router.OPTIONS (TokenPath K) (HandleOPTIONS policyCORSToken);
             router.POST (TokenPath K)
               (Middleware policyCORSToken
                  (middleware (NewHTTPToAutheliaHandlerAdaptor OpenIDConnectTokenPOST)));
             router.OPTIONS (UserinfoPath K) (HandleOPTIONS policyCORSUserinfo);
             router.GET (UserinfoPath K)
               (Middleware policyCORSUserinfo
                  (middleware (NewHTTPToAutheliaHandlerAdaptor OpenIDConnectUserinfo)));
             router.POST (UserinfoPath K)
               (Middleware policyCORSUserinfo
                  (middleware (NewHTTPToAutheliaHandlerAdaptor OpenIDConnectUserinfo)));
             router.OPTIONS (IntrospectionPath K)
               (HandleOPTIONS policyCORSIntrospection);
             router.POST (IntrospectionPath K)
               (Middleware policyCORSIntrospection
                  (middleware (NewHTTPToAutheliaHandlerAdaptor OAuthIntrospectionPOST)));
             router.OPTIONS "/api/oidc/introspect"
               (HandleOPTIONS policyCORSIntrospection);
             router.POST "/api/oidc/introspect"
               (Middleware policyCORSIntrospection
                  (middleware (NewHTTPToAutheliaHandlerAdaptor OAuthIntrospectionPOST)));
             router.OPTIONS (RevocationPath K) (HandleOPTIONS policyCORSRevocation);
             router.POST (RevocationPath K)
               (Middleware policyCORSRevocation
                  (middleware (NewHTTPToAutheliaHandlerAdaptor OAuthRevocationPOST)));
             router.OPTIONS "/api/oidc/revoke" (HandleOPTIONS policyCORSRevocation);
             router.POST "/api/oidc/revoke"
               (Middleware policyCORSRevocation
                  (middleware (NewHTTPToAutheliaHandlerAdaptor OAuthRevocationPOST))) ]
       | None => []
       end in
  let r := router.register calls r in
  let r := router.set_NotFound (handlerNotFound (middleware serveIndexHandler)) r in
  let r := router.set_HandleMethodNotAllowed true r in
  let r := router.set_MethodNotAllowed handlerMethodNotAllowed r in
  r.

(** The value [getHandler] returns: [r.Handler] under the logging
    middleware and, for a configured base path, under
    [StripPathMiddleware]. *)
Inductive ServerHandler :=
| LogRequestMiddleware (r : Router)
| StripPathMiddleware (path : string) (next : ServerHandler).

Definition getHandler (config : schema.Configuration)
    (providers : middlewares.Providers Request) : ServerHandler :=
  let r := getRouter config providers in
  let handler := LogRequestMiddleware r in
  if strNe (schema.Path (schema.Server config)) ""
  then StripPathMiddleware (schema.Path (schema.Server config)) handler
  else handler.

End getHandler.

(** *** What a registered handler does with a request

    Of the handlers, [handlerNotFound] and [handlerMethodNotAllowed] are in
    the embedded sources; the others are followed up to the point where
    control reaches them. *)
Inductive Outcome :=
| StatusCodeResponse (code : Z)
| Failed (e : core.ErrorKind)
| RouterOptionsReply
| Calls (h : RequestHandler)
| Reaches (h : FastHandler).

(** Modelled from the spec: [middlewares.Require1FA] is not among the
    embedded sources.  Section 4.2: a ceremony "requires factor_level >=
    First" and "fails with Unauthenticated if no first factor"; with a
    first factor the request goes on to the wrapped handler. *)
Fixpoint serveRequestHandler (level : core.FactorLevel) (h : RequestHandler)
    : Outcome :=
  match h with
  | Require1FA next =>
      if core.level_leb core.First level
      then serveRequestHandler level next
      else Failed core.Unauthenticated
  | _ => Calls h
  end.

(** The loop of [handlerNotFound] over [httpServerDirs]. *)
Fixpoint inServerDirs (dirs : list HTTPServerDir) (path : string) : bool :=
  match dirs with
  | [] => false
  | d :: dirs' =>
      if String.eqb path (name d) || gostrings.HasPrefix path (prefix d)
      then true
      else inServerDirs dirs' path
  end.

Section serve.
Variable K : Consts.
(** The factor level of the session the request belongs to. *)
Variable level : core.FactorLevel.
Variable ctx : RequestCtx.

Fixpoint serve (h : FastHandler) : Outcome :=
  match h with
  | handlerNotFound next =>
      let path := gostrings.ToLower (Path ctx) in
      if inServerDirs (httpServerDirs K) path
      then StatusCodeResponse StatusNotFound
      else serve next
  | handlerMethodNotAllowed => StatusCodeResponse StatusMethodNotAllowed
  | middleware next => serveRequestHandler level next
  | _ => Reaches h
  end.

(** The answer of the configured router to a request, where the router
    model decides the handler. *)
Definition respond (r : Router) : option Outcome :=
  match router.Handler r ctx with
  | Some (router.ToHandler h) => Some (serve h)
  | Some router.OptionsReply => Some RouterOptionsReply
  | Some router.DefaultMethodNotAllowed =>
      Some (StatusCodeResponse StatusMethodNotAllowed)
  | Some router.DefaultNotFound => Some (StatusCodeResponse StatusNotFound)
  | None => None
  end.

End serve.

(** *** The endpoints of each second-factor method (lines 168 to 204) *)

Definition methodDisabled (config : schema.Configuration) (m : core.Method2FA) : bool :=
  match m with
  | core.TOTP => schema.TOTPConfiguration.Disable (schema.TOTP config)
  | core.WebAuthn => schema.WebauthnConfiguration.Disable (schema.Webauthn config)
  | core.Duo => match schema.DuoAPI config with Some _ => false | None => true end
  end.

Definition methodEndpoints (m : core.Method2FA) : list (Method * string) :=
  match m with
  | core.TOTP =>
      [ (GET, "/api/user/info/totp");
        (POST, "/api/secondfactor/totp/identity/start");
        (POST, "/api/secondfactor/totp/identity/finish");
        (POST, "/api/secondfactor/totp") ]
  | core.WebAuthn =>
      [ (POST, "/api/secondfactor/webauthn/identity/start");
        (POST, "/api/secondfactor/webauthn/identity/finish");
        (POST, "/api/secondfactor/webauthn/attestation");
        (GET, "/api/secondfactor/webauthn/assertion");
        (POST, "/api/secondfactor/webauthn/assertion") ]
  | core.Duo =>
      [ (GET, "/api/secondfactor/duo_devices");
        (POST, "/api/secondfactor/duo");
        (POST, "/api/secondfactor/duo_device") ]
  end.

Definition secondFactorPaths : list string :=
  List.map snd (methodEndpoints core.TOTP ++ methodEndpoints core.WebAuthn
                ++ methodEndpoints core.Duo).

(** The literal route patterns of [getHandler] outside the three
    second-factor blocks. *)
Definition basePatterns : list string :=
  [ "/"; "/favicon.ico"; "/static/media/logo.png"; "/static/{filepath:*}";
    "/locales/{language:[a-z]{1,3}}-{variant:[a-zA-Z0-9-]+}/{namespace:[a-z]+}.json";
    "/locales/{language:[a-z]{1,3}}/{namespace:[a-z]+}.json";
    "/api/"; "/api/health"; "/api/state"; "/api/configuration";
    "/api/configuration/password-policy"; "/api/verify";
    "/api/checks/safe-redirection"; "/api/firstfactor"; "/api/logout";
    "/api/reset-password/identity/start"; "/api/reset-password/identity/finish";
    "/api/reset-password"; "/api/user/info"; "/api/user/info/2fa_method";
    "/debug/pprof/{name?}"; "/debug/vars";
    "/api/oidc/consent"; "/api/oidc/jwks"; "/api/oidc/authorize";
    "/api/oidc/introspect"; "/api/oidc/revoke" ].

Definition inPatterns (pattern : string) (patterns : list string) : bool :=
  List.existsb (String.eqb pattern) patterns.

(** *** Conditions on the package constants

    The route patterns that are built from constants: *)
Definition constPatterns (K : Consts) : list string :=
  List.map (fun file => "/" +:+ file) (rootFiles K)
  ++ ["/api/" +:+ apiFile K]
  ++ List.map (fun file => "/api/" +:+ file) (swaggerFiles K)
  ++ [ WellKnownOpenIDConfigurationPath K;
       WellKnownOAuthAuthorizationServerPath K;
       JWKsPath K; AuthorizationPath K; TokenPath K; UserinfoPath K;
       IntrospectionPath K; RevocationPath K ].

(** Where a registered route comes from: a literal pattern outside the
    second-factor blocks, a pattern built from constants, or an endpoint
    of a second-factor method that is not disabled, and then its handler
    is under [Require1FA]. *)
Definition routeOrigin (K : Consts) (config : schema.Configuration)
    (rt : router.Route FastHandler) : Prop :=
  inPatterns (router.routePath rt) basePatterns = true
  \/ In (router.routePath rt) (constPatterns K)
  \/ exists meth next,
       methodDisabled config meth = false
       /\ In (router.routeMethod rt, router.routePath rt) (methodEndpoints meth)
       /\ router.routeHandler rt = middleware (Require1FA next).

(** None of them can capture, redirect to or equal a second-factor
    endpoint, and the endpoints lie in a directory of [httpServerDirs]. *)
Definition constsClear (K : Consts) : bool :=
  List.forallb
    (fun path =>
       List.forallb (fun pattern => negb (router.related pattern path))
                    (constPatterns K)
       && inServerDirs (httpServerDirs K) (gostrings.ToLower path))
    secondFactorPaths.

(** An instance of the constants, for the concrete examples: the
    declarations are outside the embedded sources. *)
Definition sampleConsts : Consts :=
  mkConsts "public_html/" "public_html/api/" "openapi.yml" "index.html"
    ["manifest.json"; "robots.txt"]
    ["favicon-16x16.png"; "favicon-32x32.png"; "index.css";
     "oauth2-redirect.html"; "swagger-ui-bundle.js";
     "swagger-ui-standalone-preset.js"; "swagger-ui.css"; "swagger-ui.js"]
    [ mkHTTPServerDir "/api" "/api/";
      mkHTTPServerDir "/.well-known" "/.well-known/";
      mkHTTPServerDir "/static" "/static/";
      mkHTTPServerDir "/locales" "/locales/" ]
    "dev" "false"
    "-1"
    "/.well-known/openid-configuration"
    "/.well-known/oauth-authorization-server"
    "/jwks.json"
    "/api/oidc/authorization" "/api/oidc/token" "/api/oidc/userinfo"
    "/api/oidc/introspection" "/api/oidc/revocation"
    "authorization" "token" "userinfo" "introspection" "revocation".

(** A configuration for the examples. *)
Definition sampleConfig (totpDisable webauthnDisable : bool)
    (duo : option schema.DuoAPIConfiguration) : schema.Configuration :=
  schema.mkConfiguration "light"
    (schema.mkServerConfiguration "" "" false false (schema.mkServerTLS "" ""))
    (schema.mkSessionConfiguration "authelia_session" "1M")
    (schema.mkAuthenticationBackend false (schema.mkPasswordReset ""))
    (schema.TOTPConfiguration.mk totpDisable)
    (schema.WebauthnConfiguration.mk webauthnDisable)
    duo
    (schema.mkIdentityProviders
       (schema.mkOpenIDConnectConfiguration (schema.mkOpenIDConnectCORS [] []))).

Definition noProviders : middlewares.Providers unit :=
  middlewares.mkProviders (middlewares.mkOpenIDConnectProvider None).

End server.

(* --------------------------------------------------------------------- *)
(** ** Access Control Policy Engine (specification, section 4.1)           *)
(* --------------------------------------------------------------------- *)

Module policy.

Definition Method2FA_eqb (a b : core.Method2FA) : bool :=
  match a, b with
  | core.TOTP, core.TOTP | core.WebAuthn, core.WebAuthn
  | core.Duo, core.Duo => true
  | _, _ => false
  end.

(** The Identity Session of section 3; sets are lists without order. *)
Record Session := mkSession {
  principal : option string;
  factor_level : core.FactorLevel;
  authenticated_methods : list core.Method2FA;
  groups : list string;
  remember_me : bool;
  last_activity : Z;
  expires_at : Z
}.

Definition anonymous : Session :=
  mkSession None core.LevelNone [] [] false 0 0.

Inductive RequiredLevel := Bypass | OneFactor | TwoFactor.

Inductive SubjectMatcher :=
| User (name : string)
| Group (name : string)
| AnySubject.

(** An IPv4 network: the address as a 32-bit number and the prefix
    length. *)
Record CIDR := mkCIDR { network : Z; bits : Z }.

(** The request target together with the client address the network
    matchers are evaluated against. *)
Record Target := mkTarget {
  scheme : string;
  host : string;
  path : string;
  client : Z
}.

Inductive Decision :=
| Allow
| DenyRedirect (requiredLevel : RequiredLevel)
               (requiredMethods : list core.Method2FA)
| Deny.

Section Engine.
(** Domain and resource patterns "may include wildcards/regex": the
    pattern languages and their matchers are parameters. *)
Variables DomainPattern ResourcePattern : Type.
Variable domainMatches : DomainPattern -> string -> bool.
Variable resourceMatches : ResourcePattern -> string -> bool.

Record Rule := mkRule {
  domain_pattern : DomainPattern;
  resource_pattern : ResourcePattern;
  subject_matchers : list SubjectMatcher;
  network_matchers : list CIDR;
  required_level : RequiredLevel;
  required_methods : list core.Method2FA
}.

(** The configured default policy. *)
Record DefaultPolicy := mkDefaultPolicy {
  default_level : RequiredLevel;
  default_methods : list core.Method2FA
}.

Definition subjectMatches (session : Session) (m : SubjectMatcher) : bool :=
  match m with
  | User name =>
      match principal session with
      | Some who => String.eqb who name
      | None => false
      end
  | Group name => List.existsb (String.eqb name) (groups session)
  | AnySubject => true
  end.

Definition inCIDR (addr : Z) (c : CIDR) : bool :=
  Z.shiftr addr (32 - bits c) =? Z.shiftr (network c) (32 - bits c).

Definition isEmpty {A} (l : list A) : bool :=
  match l with [] => true | _ => false end.

(** Modelled from the spec: the rule matcher of the policy engine, which is
    not among the embedded sources.  Section 3: "A rule matches only if
    domain, resource, subject, and network all match (network/subject
    absence = wildcard)." *)
Definition ruleMatches (rule : Rule) (target : Target) (session : Session) : bool :=
  domainMatches (domain_pattern rule) (host target)
  && resourceMatches (resource_pattern rule) (path target)
  && (isEmpty (subject_matchers rule)
      || List.existsb (subjectMatches session) (subject_matchers rule))
  && (isEmpty (network_matchers rule)
      || List.existsb (inCIDR (client target)) (network_matchers rule)).

(** Modelled from the spec: the decision for a required level, which is
    not among the embedded sources.  Section 4.1: Bypass is allowed
    regardless of the session; One-Factor is allowed iff factor_level >=
    First; Two-Factor needs a completed second factor and, for non-empty
    required methods, one of them among the authenticated methods. *)
Definition decide (level : RequiredLevel) (methods : list core.Method2FA)
    (session : Session) : Decision :=
  match level with
  | Bypass => Allow
  | OneFactor =>
      if core.level_leb core.First (factor_level session) then Allow
      else DenyRedirect level methods
  | TwoFactor =>
      if core.level_leb core.Second (factor_level session)
         && (isEmpty methods
             || List.existsb
                  (fun m => List.existsb (Method2FA_eqb m)
                              (authenticated_methods session))
                  methods)
      then Allow
      else DenyRedirect level methods
  end.

(** Modelled from the spec: [Evaluate(target, session)] of the policy
    engine, which is not among the embedded sources.  Section 4.1: "rules
    are tried in declaration order"; section 3: "first matching rule wins;
    if no rule matches, a configured default policy applies". *)
Fixpoint Evaluate (rules : list Rule) (default : DefaultPolicy)
    (target : Target) (session : Session) : Decision :=
  match rules with
  | [] => decide (default_level default) (default_methods default) session
  | rule :: rest =>
      if ruleMatches rule target session
      then decide (required_level rule) (required_methods rule) session
      else Evaluate rest default target session
  end.

End Engine.

Arguments mkRule {DomainPattern ResourcePattern}.
Arguments domain_pattern {DomainPattern ResourcePattern}.
Arguments resource_pattern {DomainPattern ResourcePattern}.
Arguments subject_matchers {DomainPattern ResourcePattern}.
Arguments network_matchers {DomainPattern ResourcePattern}.
Arguments required_level {DomainPattern ResourcePattern}.
Arguments required_methods {DomainPattern ResourcePattern}.
Arguments ruleMatches {DomainPattern ResourcePattern}.
Arguments Evaluate {DomainPattern ResourcePattern}.

End policy.


(* --------------------------------------------------------------------- *)
(** ** Verification Workflow (specification, sections 4.4, 5 to 7)         *)
(* --------------------------------------------------------------------- *)

Module workflow.
Import policy.

(** The session store interface of section 6, the operations the workflow
    uses; each may fail with [StoreUnavailable]. *)
Inductive LoadResult :=
| Loaded (s : Session)
| NotFound
| LoadUnavailable.

Inductive SaveResult := Saved | SaveUnavailable.

Record SessionStore := mkSessionStore {
  Load : string -> LoadResult;
  Save : string -> Session -> Z -> SaveResult
}.

(** The store operations a run performs, each with its success flag. *)
Inductive StoreOp := OpLoad (key : string) | OpSave (key : string).

Definition StoreEvent : Type := StoreOp * bool.

(** Some store operation of the trace failed. *)
Definition failedIn (trace : list StoreEvent) : Prop :=
  exists op, In (op, false) trace.

(** Store operations run in an error monad that also records them: [None]
    is the [StoreUnavailable] failure, after which nothing more is done. *)
Definition M (A : Type) : Type := option A * list StoreEvent.

Definition ret {A} (a : A) : M A := (Some a, []).

Definition bind {A B} (m : M A) (k : A -> M B) : M B :=
  match m with
  | (Some a, t1) => let '(b, t2) := k a in (b, t1 ++ t2)
  | (None, t1) => (None, t1)
  end.

Definition load (store : SessionStore) (key : string) : M (option Session) :=
  match Load store key with
  | Loaded s => (Some (Some s), [(OpLoad key, true)])
  | NotFound => (Some None, [(OpLoad key, true)])
  | LoadUnavailable => (None, [(OpLoad key, false)])
  end.

Definition save (store : SessionStore) (key : string) (s : Session) (ttl : Z)
    : M unit :=
  match Save store key s ttl with
  | Saved => (Some tt, [(OpSave key, true)])
  | SaveUnavailable => (None, [(OpSave key, false)])
  end.

Record VerifyRequest := mkVerifyRequest {
  target : Target;
  cookie : option string;
  (** false for a client that cannot follow a redirect *)
  browser : bool
}.

(** The verification result object, by decision. *)
Inductive VerifyResult :=
| ResultAllow (principal : option string) (groups : list string) (url : Target)
| ResultRedirect (redirectTarget : Target) (requiredLevel : RequiredLevel)
                 (requiredMethods : list core.Method2FA)
| ResultDeny.

Definition with_activity (now inactivity : Z) (s : Session) : Session :=
  mkSession (principal s) (factor_level s) (authenticated_methods s) (groups s)
            (remember_me s) now (now + inactivity).

Section Verify.
Variables DomainPattern ResourcePattern : Type.
Variable domainMatches : DomainPattern -> string -> bool.
Variable resourceMatches : ResourcePattern -> string -> bool.
Variable store : SessionStore.
Variable rules : list (Rule DomainPattern ResourcePattern).
Variable default : DefaultPolicy.
(** The current time and the idle timeout. *)
Variables now inactivity : Z.

(** Modelled from the spec: the first step of the workflow, which is not
    among the embedded sources.  Section 4.4: "resolve Identity Session
    (absent/expired => treat as anonymous)", then the "sliding expiry touch
    on activity, when remember-me is not in effect". *)
Definition resolveSession (req : VerifyRequest) : M Session :=
  match cookie req with
  | None => ret anonymous
  | Some key =>
      bind (load store key) (fun found =>
      match found with
      | None => ret anonymous
      | Some s =>
          if expires_at s <? now then ret anonymous
          else if remember_me s then ret s
          else bind (save store key (with_activity now inactivity s) inactivity)
                    (fun _ => ret (with_activity now inactivity s))
      end)
  end.

(** Modelled from the spec: the Verification Workflow ([handlers.VerifyGET]
    is registered by [getHandler] but is not among the embedded sources).
    Section 4.4 gives the steps, section 7 the rule that a store failure
    yields Deny. *)
Definition Verify (req : VerifyRequest) : VerifyResult * list StoreEvent :=
  let '(r, trace) :=
    bind (resolveSession req) (fun session =>
    ret (match Evaluate domainMatches resourceMatches rules default
                 (target req) session with
         | Allow => ResultAllow (principal session) (groups session) (target req)
         | DenyRedirect level methods =>
             if browser req then ResultRedirect (target req) level methods
             else ResultDeny
         | Deny => ResultDeny
         end)) in
  (match r with Some result => result | None => ResultDeny end, trace).

End Verify.

Arguments Verify {DomainPattern ResourcePattern}.

End workflow.

(* --------------------------------------------------------------------- *)
(** ** Step-Up Ceremony tokens (specification, sections 3, 4.2, 5, 6)      *)
(* --------------------------------------------------------------------- *)

Module ceremony.

Inductive Operation := Register | Authenticate.

Record Token := mkToken {
  purpose : core.Method2FA * Operation;
  subject : string;
  nonce : string;
  created_at : Z;
  expires_at : Z
}.

(** One [Finish] call: the token it presents, the principal of its
    session, the purpose of its endpoint, its proof and its clock. *)
Record Call (Proof : Type) := mkCall {
  callToken : string;
  callSubject : string;
  callPurpose : core.Method2FA * Operation;
  callProof : Proof;
  callNow : Z
}.
Arguments mkCall {Proof}.
Arguments callToken {Proof}.
Arguments callSubject {Proof}.
Arguments callPurpose {Proof}.
Arguments callProof {Proof}.
Arguments callNow {Proof}.

Definition Operation_eqb (a b : Operation) : bool :=
  match a, b with
  | Register, Register | Authenticate, Authenticate => true
  | _, _ => false
  end.

(** Modelled from the spec: the validity check of the token store, which
    is not among the embedded sources.  Section 4.2: a token is refused
    when "missing, expired, or subject mismatch"; section 6 adds the
    purpose to the key of [TakeIfValid]. *)
Definition tokenValid {Proof} (t : Token) (c : Call Proof) : bool :=
  (callNow c <=? expires_at t)
  && String.eqb (subject t) (callSubject c)
  && policy.Method2FA_eqb (fst (purpose t)) (fst (callPurpose c))
  && Operation_eqb (snd (purpose t)) (snd (callPurpose c)).

(** Modelled from the spec: the ceremony-token store, which is not among
    the embedded sources.  Section 6: [TakeIfValid(id, subject, purpose) ->
    token|NotFound]; section 5: "consume must be a single atomic
    check-and-delete".  The function is one atomic step on the store. *)
Definition TakeIfValid {Proof} (c : Call Proof) (store : gmap string Token)
    : option Token * gmap string Token :=
  match store !! callToken c with
  | Some t => if tokenValid t c then (Some t, delete (callToken c) store)
              else (None, store)
  | None => (None, store)
  end.

Inductive FinishResult :=
| Finished
| FinishFailed (e : core.ErrorKind).

(** A [Finish] call in progress: before the token store step, after it, and
    after the verifier. *)
Inductive Thread :=
| Pending
| Took (t : option Token)
| Done (r : FinishResult).

Section Finish.
Variable Proof : Type.
(** The method-specific verifier: [None] accepts the proof, [Some e] is
    the failure the method reports. *)
Variable verify : Token -> Proof -> option core.ErrorKind.

(** Modelled from the spec: [Finish] (section 4.2), which is not among the
    embedded sources: it "atomically loads-and-deletes the token", "fails
    with InvalidOrExpiredToken if missing, expired, or subject mismatch",
    and on a valid token delegates to the verifier.  One call of [step] is
    one atomic action of the call. *)
Definition step (c : Call Proof) (store : gmap string Token) (th : Thread)
    : gmap string Token * Thread :=
  match th with
  | Pending => let '(t, store') := TakeIfValid c store in (store', Took t)
  | Took (Some t) =>
      (store, Done (match verify t (callProof c) with
                    | None => Finished
                    | Some e => FinishFailed e
                    end))
  | Took None => (store, Done (FinishFailed core.InvalidOrExpiredToken))
  | Done r => (store, Done r)
  end.

(** Two concurrent calls: the shared store and the state of each call. *)
Record System := mkSystem {
  tokens : gmap string Token;
  threadA : Thread;
  threadB : Thread
}.

(** A schedule names, action by action, the call that moves ([true] is the
    first call). *)
Fixpoint run (cA cB : Call Proof) (schedule : list bool) (s : System) : System :=
  match schedule with
  | [] => s
  | true :: rest =>
      let '(store', a') := step cA (tokens s) (threadA s) in
      run cA cB rest (mkSystem store' a' (threadB s))
  | false :: rest =>
      let '(store', b') := step cB (tokens s) (threadB s) in
      run cA cB rest (mkSystem store' (threadA s) b')
  end.

Definition turns (who : bool) (schedule : list bool) : nat :=
  List.length (List.filter (Bool.eqb who) schedule).

(** Actions a call has behind it. *)
Definition progress (th : Thread) : nat :=
  match th with Pending => 0 | Took _ => 1 | Done _ => 2 end.

(** The call that consumed the token, and the call that found none. *)
Definition holds (tok : Token) (th : Thread) : Prop :=
  th = Took (Some tok) \/ th = Done Finished.

Definition misses (th : Thread) : Prop :=
  th = Pending \/ th = Took None
  \/ th = Done (FinishFailed core.InvalidOrExpiredToken).

(** What holds of two calls for the token [tok] stored under [id] at every
    moment: the token is still there and nobody moved, or it is gone and
    exactly one of the calls has it. *)
Definition consistent (id : string) (tok : Token) (s : System) : Prop :=
  (tokens s !! id = Some tok /\ threadA s = Pending /\ threadB s = Pending)
  \/ (tokens s !! id = None /\ holds tok (threadA s) /\ misses (threadB s))
  \/ (tokens s !! id = None /\ misses (threadA s) /\ holds tok (threadB s)).

End Finish.

Arguments step {Proof}.
Arguments run {Proof}.

End ceremony.


(* --------------------------------------------------------------------- *)
(** ** Vocabulary for the further properties (Part III)                    *)
(* --------------------------------------------------------------------- *)

Module text.

Definition startsWithByte (c : ascii) (s : string) : bool :=
  match s with
  | String d _ => Ascii.eqb d c
  | EmptyString => false
  end.

Fixpoint endsWithByte (c : ascii) (s : string) : bool :=
  match s with
  | EmptyString => false
  | String d EmptyString => Ascii.eqb d c
  | String _ rest => endsWithByte c rest
  end.

Fixpoint hasByte (c : ascii) (s : string) : bool :=
  match s with
  | EmptyString => false
  | String d rest => Ascii.eqb d c || hasByte c rest
  end.

Fixpoint onlyByte (c : ascii) (s : string) : bool :=
  match s with
  | EmptyString => true
  | String d rest => Ascii.eqb d c && onlyByte c rest
  end.



End text.


Module registry.
Import server.


(** The CORS policy a handler value is built with, if any. *)
Definition policyOf (h : FastHandler) : option CORSPolicy :=
  match h with
  | HandleOPTIONS policy | HandleOnlyOPTIONS policy | Middleware policy _ =>
      Some policy
  | _ => None
  end.

(** A handler value that ends in [NewHTTPToAutheliaHandlerAdaptor(fn)]:
    directly under the Authelia middleware, or with a CORS middleware
    around it. *)
Definition adaptorOf (h : FastHandler) : option HTTPHandlerFunc :=
  match h with
  | middleware (NewHTTPToAutheliaHandlerAdaptor fn) => Some fn
  | Middleware _ (middleware (NewHTTPToAutheliaHandlerAdaptor fn)) => Some fn
  | _ => None
  end.

(** The handler functions of each second-factor block that are registered
    as [middleware(Require1FA(fn))]. *)
Definition methodFuncs (m : core.Method2FA) : list HandlerFunc :=
  match m with
  | core.TOTP =>
      [ UserTOTPInfoGET; TOTPIdentityStart; TOTPIdentityFinish;
        TimeBasedOneTimePasswordPOST ]
  | core.WebAuthn =>
      [ WebauthnIdentityStart; WebauthnIdentityFinish; WebauthnAttestationPOST;
        WebauthnAssertionGET; WebauthnAssertionPOST ]
  | core.Duo => [ DuoDevicePOST ]
  end.

(** Some registered route has the handler [h]. *)
Definition registers {Request : Type} (K : Consts) (ENVIRONMENT : string)
    (config : schema.Configuration) (providers : middlewares.Providers Request)
    (h : FastHandler) : Prop :=
  exists rt,
    In rt (router.routes (getRouter K ENVIRONMENT config providers))
    /\ router.routeHandler rt = h.

(** The endpoint name constant of package [oidc] that belongs to each
    adapted handler, as [getHandler] pairs them. *)
Definition endpointOf (K : Consts) (fn : HTTPHandlerFunc) : string :=
  match fn with
  | OpenIDConnectAuthorizationGET => AuthorizationEndpoint K
  | OpenIDConnectTokenPOST => TokenEndpoint K
  | OpenIDConnectUserinfo => UserinfoEndpoint K
  | OAuthIntrospectionPOST => IntrospectionEndpoint K
  | OAuthRevocationPOST => RevocationEndpoint K
  end.

(** The name of a request method, as the CORS builder is given it. *)
Definition methodName (m : fasthttp.Method) : string :=
  match m with
  | fasthttp.GET => "GET" | fasthttp.HEAD => "HEAD" | fasthttp.POST => "POST"
  | fasthttp.PUT => "PUT" | fasthttp.PATCH => "PATCH"
  | fasthttp.DELETE => "DELETE" | fasthttp.CONNECT => "CONNECT"
  | fasthttp.OPTIONS => "OPTIONS" | fasthttp.TRACE => "TRACE"
  end.

End registry.


(* ===================================================================== *)
(** * Part II.  Statements                                                 *)
(* ===================================================================== *)

Module Std := schema.PasswordPolicyStandardParams.
Module Zx := schema.PasswordPolicyZXCVBNParams.

(** Case analysis on every conditional left in the goal. *)
Ltac split_ifs :=
  repeat (cbv iota;
          match goal with
          | |- context [if ?b then _ else _] =>
              lazymatch b with
              | true => fail
              | false => fail
              | _ => destruct b eqn:?
              end
          end).

Example fmt_d_neg : fmt_d (-1) = "-1".
Proof. reflexivity. Qed.

(* --------------------------------------------------------------------- *)
(** ** ValidatePasswordPolicy                                              *)
(* --------------------------------------------------------------------- *)

Section PasswordPolicyFacts.
Import schema validator.

Variable IsBoolCountLessThanN : Z -> bool -> list bool -> bool.
Variable Default : PasswordPolicyConfiguration.

Abbreviation Validate := (ValidatePasswordPolicy IsBoolCountLessThanN Default).
Abbreviation pushed := (pushedErrors IsBoolCountLessThanN).

Lemma ValidatePasswordPolicy_errors config v :
  Errors (snd (Validate config v)) = Errors v ++ pushed config.
Proof.
  unfold ValidatePasswordPolicy, pushedErrors.
  destruct (negb _);
    destruct (Std.Enabled (Standard config)); cbn [andb];
    destruct (Z.eqb_spec (Std.MinLength (Standard config)) 0) as [E|E];
    destruct (Z.ltb_spec (Std.MinLength (Standard config)) 0) as [L|L];
    try lia; split_ifs;
    cbn; rewrite ?app_nil_r, <- ?app_assoc; reflexivity.
Qed.

Lemma ValidatePasswordPolicy_warnings config v :
  Warnings (snd (Validate config v)) = Warnings v.
Proof.
  unfold ValidatePasswordPolicy. split_ifs; reflexivity.
Qed.

Lemma ValidatePasswordPolicy_disabled config v :
  Std.Enabled (Standard config) = false ->
  fst (Validate config v) = config.
Proof.
  intros H. unfold ValidatePasswordPolicy. rewrite H.
  destruct (negb _); reflexivity.
Qed.

End PasswordPolicyFacts.

Lemma errMinLength_not_multiple n :
  validator.errFmtPasswordPolicyMinLengthNotGreaterThanZero n
  <> validator.errPasswordPolicyMultipleDefined.
Proof.
  unfold validator.errFmtPasswordPolicyMinLengthNotGreaterThanZero,
    validator.errPasswordPolicyMultipleDefined.
  cbn. intros H. discriminate H.
Qed.

(** C8.  With the standard mechanism enabled: a [MinLength] of 0 becomes the
    default (8, the value of the default configuration); a negative
    [MinLength] is kept as it is and the min-length error is the last error
    pushed; a [MaxLength] of 0 becomes the default [MaxLength]. *)
Theorem ValidatePasswordPolicy_standard_defaults
    (IsBoolCountLessThanN : Z -> bool -> list bool -> bool)
    (Default config : schema.PasswordPolicyConfiguration)
    (v : schema.StructValidator)
    (Hdefault : Std.MinLength (schema.Standard Default) = 8)
    (Henabled : Std.Enabled (schema.Standard config) = true) :
  let r := validator.ValidatePasswordPolicy IsBoolCountLessThanN Default config v in
  let std := schema.Standard config in
  let std' := schema.Standard (fst r) in
  (Std.MinLength std = 0 ->
     Std.MinLength std' = 8 /\ Std.MinLength std' = Std.MinLength (schema.Standard Default)) /\
  (Std.MinLength std < 0 ->
     Std.MinLength std' = Std.MinLength std /\
     exists earlier,
       schema.Errors (snd r) =
         schema.Errors v ++ earlier ++
         [validator.errFmtPasswordPolicyMinLengthNotGreaterThanZero (Std.MinLength std)]) /\
  (Std.MaxLength std = 0 ->
     Std.MaxLength std' = Std.MaxLength (schema.Standard Default)).
Proof.
  intros r std std'. subst r std std'.
  split; [intros H; split | split; [intros H; split | intros H]].
  - unfold validator.ValidatePasswordPolicy. rewrite Henabled, H.
    change (0 =? 0) with true. split_ifs; cbn; exact Hdefault.
  - unfold validator.ValidatePasswordPolicy. rewrite Henabled, H.
    change (0 =? 0) with true. split_ifs; reflexivity.
  - unfold validator.ValidatePasswordPolicy. rewrite Henabled.
    destruct (Z.eqb_spec (Std.MinLength (schema.Standard config)) 0); [lia|].
    destruct (Z.ltb_spec (Std.MinLength (schema.Standard config)) 0); [|lia].
    split_ifs; reflexivity.
  - rewrite ValidatePasswordPolicy_errors. unfold validator.pushedErrors.
    rewrite Henabled. cbn [andb].
    destruct (Z.ltb_spec (Std.MinLength (schema.Standard config)) 0); [|lia].
    eexists. reflexivity.
  - unfold validator.ValidatePasswordPolicy. rewrite Henabled.
    destruct (negb _);
      destruct (Std.MinLength (schema.Standard config) =? 0);
      try destruct (Std.MinLength (schema.Standard config) <? 0);
      cbn; rewrite H; reflexivity.
Qed.

Lemma ValidatePasswordPolicy_standard_defaults_witness :
  let Default := validator.DefaultPasswordPolicyConfiguration_inst in
  let config := schema.mkPasswordPolicyConfiguration
                  (Std.mk true (-1) 0 false false false false) (Zx.mk true) in
  let r := validator.ValidatePasswordPolicy validator.IsBoolCountLessThanN_inst
             Default config schema.NewStructValidator in
  Std.MinLength (schema.Standard Default) = 8 /\
  Std.Enabled (schema.Standard config) = true /\
  (Std.MinLength (schema.Standard config) < 0 ->
   Std.MinLength (schema.Standard (fst r)) = -1 /\
   exists earlier,
     schema.Errors (snd r) =
       [] ++ earlier ++ [validator.errFmtPasswordPolicyMinLengthNotGreaterThanZero (-1)]).
Proof.
  intros Default config r.
  split; [reflexivity | split; [reflexivity |]].
  exact (proj1 (proj2 (ValidatePasswordPolicy_standard_defaults
                         validator.IsBoolCountLessThanN_inst Default config
                         schema.NewStructValidator eq_refl eq_refl))).
Defined.

(** "More than one mechanism enabled" amounts to both switches being on. *)
Lemma countBools_two a b :
  1 < validator.countBools true [a; b] <-> a = true /\ b = true.
Proof.
  destruct a, b; vm_compute; split; intros H;
    solve [split; reflexivity | reflexivity | discriminate H
          | destruct H; discriminate].
Qed.

(** C9.  The errors pushed by one call contain the "only a single password
    policy mechanism can be specified" error exactly when more than one of
    [Standard.Enabled] and [ZXCVBN.Enabled] is true; [IsBoolCountLessThanN n v]
    is taken to accept exactly the lists with at most [n] values equal to
    [v]. *)
Theorem ValidatePasswordPolicy_multiple_defined_iff
    (IsBoolCountLessThanN : Z -> bool -> list bool -> bool)
    (Default config : schema.PasswordPolicyConfiguration)
    (v : schema.StructValidator)
    (HIsBoolCount : forall n b vals,
        IsBoolCountLessThanN n b vals = (validator.countBools b vals <=? n)) :
  let r := validator.ValidatePasswordPolicy IsBoolCountLessThanN Default config v in
  let enabled := [Std.Enabled (schema.Standard config);
                  Zx.Enabled (schema.ZXCVBN config)] in
  exists pushed,
    schema.Errors (snd r) = schema.Errors v ++ pushed /\
    (In validator.errPasswordPolicyMultipleDefined pushed
     <-> 1 < validator.countBools true enabled).
Proof.
  intros r enabled. subst r enabled.
  exists (validator.pushedErrors IsBoolCountLessThanN config).
  split; [apply ValidatePasswordPolicy_errors |].
  unfold validator.pushedErrors. rewrite HIsBoolCount.
  destruct (Z.leb_spec
              (validator.countBools true
                 [Std.Enabled (schema.Standard config);
                  Zx.Enabled (schema.ZXCVBN config)]) 1) as [Hle|Hgt];
    cbn [negb app].
  - split; [|lia].
    destruct (_ && _); cbn [In]; [|tauto].
    intros [H|[]]. exfalso. exact (errMinLength_not_multiple _ H).
  - split; [intros _; exact Hgt | intros _; left; reflexivity].
Qed.

Lemma ValidatePasswordPolicy_multiple_defined_iff_witness :
  let config := schema.mkPasswordPolicyConfiguration
                  (Std.mk true (-1) 0 false false false false) (Zx.mk true) in
  let r := validator.ValidatePasswordPolicy validator.IsBoolCountLessThanN_inst
             validator.DefaultPasswordPolicyConfiguration_inst config
             schema.NewStructValidator in
  (forall n b vals,
      validator.IsBoolCountLessThanN_inst n b vals
      = (validator.countBools b vals <=? n)) /\
  exists pushed,
    schema.Errors (snd r) = [] ++ pushed /\
    (In validator.errPasswordPolicyMultipleDefined pushed
     <-> 1 < validator.countBools true [true; true]).
Proof.
  intros config r. split; [reflexivity |].
  exact (ValidatePasswordPolicy_multiple_defined_iff
           validator.IsBoolCountLessThanN_inst
           validator.DefaultPasswordPolicyConfiguration_inst config
           schema.NewStructValidator (fun _ _ _ => eq_refl)).
Defined.

(** The four rows of the table in password_policy_test.go. *)
Example test_ShouldRaiseErrorsWhenMisconfigured :
  let have := schema.mkPasswordPolicyConfiguration
                (Std.mk true (-1) 0 false false false false) (Zx.mk true) in
  let r := validator.ValidatePasswordPolicy validator.IsBoolCountLessThanN_inst
             validator.DefaultPasswordPolicyConfiguration_inst have
             schema.NewStructValidator in
  fst r = have /\
  schema.Warnings (snd r) = [] /\
  schema.Errors (snd r) =
    ["password_policy: only a single password policy mechanism can be specified";
     "password_policy: standard: option 'min_length' must be greater than 0 but is configured as -1"].
Proof. repeat split. Qed.

Example test_ShouldNotRaiseErrorsStandard :
  let have := schema.mkPasswordPolicyConfiguration
                (Std.mk true 8 0 false false false false) (Zx.mk false) in
  validator.ValidatePasswordPolicy validator.IsBoolCountLessThanN_inst
    validator.DefaultPasswordPolicyConfiguration_inst have schema.NewStructValidator
  = (have, schema.NewStructValidator).
Proof. reflexivity. Qed.

Example test_ShouldNotRaiseErrorsZXCVBN :
  let have := schema.mkPasswordPolicyConfiguration
                (Std.mk false 0 0 false false false false) (Zx.mk true) in
  validator.ValidatePasswordPolicy validator.IsBoolCountLessThanN_inst
    validator.DefaultPasswordPolicyConfiguration_inst have schema.NewStructValidator
  = (have, schema.NewStructValidator).
Proof. reflexivity. Qed.

Example test_ShouldSetDefaultstandard :
  let have := schema.mkPasswordPolicyConfiguration
                (Std.mk true 0 0 false false false false) (Zx.mk false) in
  validator.ValidatePasswordPolicy validator.IsBoolCountLessThanN_inst
    validator.DefaultPasswordPolicyConfiguration_inst have schema.NewStructValidator
  = (schema.mkPasswordPolicyConfiguration
       (Std.mk true 8 0 false false false false) (Zx.mk false),
     schema.NewStructValidator).
Proof. reflexivity. Qed.

(* --------------------------------------------------------------------- *)
(** ** OAuthRevocationPOST                                                 *)
(* --------------------------------------------------------------------- *)

Section OAuthRevocationFacts.
Import handlers.
Context {Request ResponseWriter : Type}.
Variable ErrorToRFC6749Error : error -> fosite.RFC6749Error.

Lemma OAuthRevocationPOST_nil_provider ctx (rw : ResponseWriter) (req : Request) :
  theFosite ctx = None ->
  OAuthRevocationPOST ErrorToRFC6749Error ctx rw req = None.
Proof.
  intros H. unfold OAuthRevocationPOST, callNewRevocationRequest.
  now rewrite H.
Qed.

Lemma OAuthRevocationPOST_trace ctx p (rw : ResponseWriter) (req : Request) :
  theFosite ctx = Some p ->
  OAuthRevocationPOST ErrorToRFC6749Error ctx rw req =
    Some (tt,
          CallNewRevocationRequest req ::
          match fosite.NewRevocationRequest p req with
          | Some e => [LoggerErrorf (revocationLogLine ErrorToRFC6749Error e)]
          | None => []
          end ++
          [CallWriteRevocationResponse rw (fosite.NewRevocationRequest p req)]).
Proof.
  intros Hp.
  unfold OAuthRevocationPOST, callNewRevocationRequest,
    callWriteRevocationResponse. rewrite Hp.
  destruct (fosite.NewRevocationRequest p req); reflexivity.
Qed.

End OAuthRevocationFacts.

(** C10.  With the provider in place (the route is registered only then),
    [OAuthRevocationPOST] returns, and on the way it calls
    [WriteRevocationResponse] exactly once, as its last action, with the
    error [NewRevocationRequest] returned; a non-nil error is logged before
    that, a nil one is not. *)
Theorem OAuthRevocationPOST_always_writes
    {Request ResponseWriter : Type}
    (ErrorToRFC6749Error : error -> fosite.RFC6749Error)
    (ctx : middlewares.AutheliaCtx.t Request) (p : fosite.OAuth2Provider Request)
    (rw : ResponseWriter) (req : Request)
    (Hprovider :
       middlewares.Fosite
         (middlewares.OpenIDConnect (middlewares.AutheliaCtx.Providers ctx))
       = Some p) :
  let err := fosite.NewRevocationRequest p req in
  exists t,
    handlers.OAuthRevocationPOST ErrorToRFC6749Error ctx rw req = Some (tt, t) /\
    handlers.responsesWritten t = 1%nat /\
    List.last t (handlers.CallNewRevocationRequest req)
      = handlers.CallWriteRevocationResponse rw err /\
    (forall e, err = Some e ->
       In (handlers.LoggerErrorf
             (handlers.revocationLogLine ErrorToRFC6749Error e)) t) /\
    (err = None -> forall msg, ~ In (handlers.LoggerErrorf msg) t).
Proof.
  intros err. subst err.
  eexists. split; [apply (OAuthRevocationPOST_trace _ _ _ _ _ Hprovider) |].
  destruct (fosite.NewRevocationRequest p req) as [e|]; cbn.
  - repeat split.
    + intros e' [= ->]. right; left; reflexivity.
    + discriminate.
  - repeat split.
    + discriminate.
    + intros _ msg [H|[H|[]]]; discriminate H.
Qed.

Lemma OAuthRevocationPOST_always_writes_witness :
  let p := fosite.mkOAuth2Provider
             (fun req : string => if String.eqb req "token=abc" then None
                                  else Some "invalid_request") in
  let ctx := middlewares.AutheliaCtx.mk
               (middlewares.mkProviders (middlewares.mkOpenIDConnectProvider (Some p))) in
  middlewares.Fosite
    (middlewares.OpenIDConnect (middlewares.AutheliaCtx.Providers ctx)) = Some p /\
  exists t,
    handlers.OAuthRevocationPOST fosite.mkRFC6749Error ctx 0%nat "" = Some (tt, t) /\
    handlers.responsesWritten t = 1%nat /\
    List.last t (handlers.CallNewRevocationRequest "")
      = handlers.CallWriteRevocationResponse 0%nat (Some "invalid_request") /\
    (forall e, Some "invalid_request" = Some e ->
       In (handlers.LoggerErrorf
             (handlers.revocationLogLine fosite.mkRFC6749Error e)) t) /\
    (Some "invalid_request" = None ->
     forall msg, ~ In (handlers.LoggerErrorf (Request:=string) (ResponseWriter:=nat) msg) t).
Proof.
  intros p ctx. split; [reflexivity |].
  exact (OAuthRevocationPOST_always_writes fosite.mkRFC6749Error ctx p 0%nat ""
           eq_refl).
Defined.

(* --------------------------------------------------------------------- *)
(** ** handlerError: getRemoteIP                                           *)
(* --------------------------------------------------------------------- *)

Lemma Split_nonempty s sep : gostrings.Split s sep <> [].
Proof.
  induction s as [|c s IH]; cbn; [discriminate |].
  destruct (Ascii.eqb c sep); [discriminate |].
  destruct (gostrings.Split s sep); discriminate.
Qed.

Lemma Split_head s :
  List.nth 0 (gostrings.Split s ",") "" = server.beforeFirstComma s.
Proof.
  induction s as [|c s IH]; cbn; [reflexivity |].
  destruct (Ascii.eqb c ","); [reflexivity |].
  pose proof (Split_nonempty s ",") as Hne.
  destruct (gostrings.Split s ",") as [|piece rest]; [congruence |].
  cbn in *. now rewrite IH.
Qed.

Example Split_example :
  gostrings.Split "203.0.113.7, 10.0.0.1,10.0.0.2" ","
  = ["203.0.113.7"; " 10.0.0.1"; "10.0.0.2"].
Proof. reflexivity. Qed.

Example Split_empty : gostrings.Split "" "," = [""].
Proof. reflexivity. Qed.

Example Trim_example : gostrings.Trim "  10.0.0.1 " " " = "10.0.0.1".
Proof. reflexivity. Qed.

(** C1 (as amended).  Whenever the request carries an X-Forwarded-For
    header, [getRemoteIP] is the text before the header's first comma with
    the surrounding spaces removed, whatever the peer address of the
    connection is; the peer address is used only when the header is
    absent. *)
Theorem getRemoteIP_first_forwarded_entry (ctx : fasthttp.RequestCtx) :
  server.getRemoteIP ctx =
    match fasthttp.XForwardedFor ctx with
    | Some hdr => gostrings.Trim (server.beforeFirstComma hdr) " "
    | None => fasthttp.RemoteIP ctx
    end.
Proof.
  unfold server.getRemoteIP.
  destruct (fasthttp.XForwardedFor ctx) as [hdr|]; [|reflexivity].
  cbv zeta. rewrite Split_head.
  pose proof (Split_nonempty hdr ",") as Hne.
  destruct (gostrings.Split hdr ","); [congruence | reflexivity].
Qed.

(** C1, the claim as written fails: a client that connects from
    198.51.100.7 through one trusted proxy hop and supplies its own
    X-Forwarded-For entry gets that entry taken as its address, although it
    is neither the peer address nor among the entries written by the
    trusted hop. *)
Lemma getRemoteIP_trusts_client_entry :
  let ctx := fasthttp.mkRequestCtx fasthttp.GET "/" "/"
               (Some "6.6.6.6, 198.51.100.7") "10.0.0.2" in
  server.getRemoteIP ctx = "6.6.6.6" /\
  server.trustedAddresses 1 ctx = ["10.0.0.2"; "198.51.100.7"] /\
  ~ server.respectsTrustedHops 1 ctx (server.getRemoteIP ctx).
Proof.
  cbv zeta. split; [reflexivity | split; [reflexivity |]].
  unfold server.respectsTrustedHops.
  change (~ In "6.6.6.6" ["10.0.0.2"; "198.51.100.7"]).
  cbn. intros [H|[H|[]]]; discriminate H.
Qed.

(* --------------------------------------------------------------------- *)
(** ** The routing table of getHandler                                     *)
(* --------------------------------------------------------------------- *)

Section RouterFacts.
Context {H : Type}.
Implicit Types (r : router.Router H) (rs : list (router.Route H)).

Lemma Handle_routes m p (h : H) r :
  router.routes (router.Handle m p h r) = router.routes r ++ [router.mkRoute m p h].
Proof. reflexivity. Qed.

Lemma register_routes calls r :
  router.routes (router.register calls r) = router.routes r ++ calls.
Proof.
  unfold router.register. revert r.
  induction calls as [|c calls IH]; intros r; cbn [List.fold_left].
  - now rewrite app_nil_r.
  - rewrite IH, Handle_routes, <- app_assoc. now destruct c.
Qed.

Lemma register_NotFound calls r :
  router.NotFound (router.register calls r) = router.NotFound r.
Proof.
  unfold router.register. revert r.
  induction calls as [|c calls IH]; intros r; cbn [List.fold_left];
    [reflexivity | now rewrite IH].
Qed.

Lemma lookupRoute_app m p rs1 rs2 :
  router.lookupRoute m p (rs1 ++ rs2) =
    match router.lookupRoute m p rs1 with
    | Some h => Some h
    | None => router.lookupRoute m p rs2
    end.
Proof.
  unfold router.lookupRoute.
  induction rs1 as [|rt rs1 IH]; cbn [List.find app]; [reflexivity |].
  destruct (_ && _); [reflexivity | exact IH].
Qed.

Lemma lookupRoute_other_method m m' p (mk : string -> router.Route H) files :
  (forall file, router.routeMethod (mk file) = m') ->
  fasthttp.Method_eqb m' m = false ->
  router.lookupRoute m p (List.map mk files) = None.
Proof.
  intros Hmk Hne. unfold router.lookupRoute.
  induction files as [|file files IH]; cbn [List.map List.find]; [reflexivity |].
  now rewrite Hmk, Hne.
Qed.

End RouterFacts.

(** The routes of the configured router are the calls of [getRouter], in
    order. *)
Ltac routes_of_getRouter :=
  unfold server.getRouter; cbv zeta;
  unfold router.set_MethodNotAllowed, router.set_HandleMethodNotAllowed,
    router.set_NotFound;
  cbn [router.routes router.NotFound router.MethodNotAllowed
       router.HandleMethodNotAllowed router.HandleOPTIONS];
  rewrite ?register_routes, ?register_NotFound;
  cbn [router.routes router.NotFound router.New];
  rewrite ?app_nil_l.

(** C2.  Whatever the configuration, the providers and the package
    constants, the handler registered for POST /api/firstfactor is
    [FirstFactorPOST] applied to the delay function
    [TimingAttackDelay(10, 250, 85, time.Second)], under the Authelia
    middleware. *)
Theorem firstfactor_uses_timing_delay
    {Request : Type} (K : server.Consts) (ENVIRONMENT : string)
    (config : schema.Configuration) (providers : middlewares.Providers Request) :
  router.lookupRoute fasthttp.POST "/api/firstfactor"
    (router.routes (server.getRouter K ENVIRONMENT config providers))
  = Some (server.middleware
            (server.FirstFactorPOST
               (server.TimingAttackDelay 10 250 85 server.time_Second))).
Proof.
  routes_of_getRouter.
  rewrite !lookupRoute_app.
  rewrite (lookupRoute_other_method _ fasthttp.GET) by reflexivity.
  rewrite (lookupRoute_other_method _ fasthttp.GET) by reflexivity.
  reflexivity.
Qed.

Lemma constPatterns_root K file :
  In file (server.rootFiles K) -> In ("/" +:+ file) (server.constPatterns K).
Proof.
  intros Hin. unfold server.constPatterns. apply in_or_app. left.
  now apply (in_map (fun file => "/" +:+ file)).
Qed.

Lemma constPatterns_swagger K file :
  In file (server.swaggerFiles K) -> In ("/api/" +:+ file) (server.constPatterns K).
Proof.
  intros Hin. unfold server.constPatterns.
  apply in_or_app; right. apply in_or_app; right. apply in_or_app; left.
  now apply (in_map (fun file => "/api/" +:+ file)).
Qed.

Lemma constPatterns_named K pattern :
  In pattern
     [ "/api/" +:+ server.apiFile K;
       server.WellKnownOpenIDConfigurationPath K;
       server.WellKnownOAuthAuthorizationServerPath K;
       server.JWKsPath K; server.AuthorizationPath K; server.TokenPath K;
       server.UserinfoPath K; server.IntrospectionPath K;
       server.RevocationPath K ] ->
  In pattern (server.constPatterns K).
Proof.
  intros Hin. unfold server.constPatterns.
  apply in_or_app; right.
  destruct Hin as [<-|Hin]; [apply in_or_app; left; left; reflexivity |].
  apply in_or_app; right. apply in_or_app; right. exact Hin.
Qed.

(** One registration of the table: literal, from a constant, or a guarded
    second-factor endpoint. *)
Ltac route_origin :=
  first
    [ left; reflexivity
    | right; left; apply constPatterns_named; cbn [In router.routePath
        router.GET router.POST router.HEAD router.OPTIONS]; tauto
    | right; right; eexists core.TOTP, _; split; [eassumption |];
      split; [cbn; tauto | reflexivity]
    | right; right; eexists core.WebAuthn, _; split; [eassumption |];
      split; [cbn; tauto | reflexivity]
    | right; right; eexists core.Duo, _; split; [eassumption |];
      split; [cbn; tauto | reflexivity] ].

Ltac routes_origin :=
  repeat first
    [ apply Stdlib.Lists.List.Forall_nil
    | apply Stdlib.Lists.List.Forall_cons; [route_origin |] ].

Lemma getRouter_route_origin {Request : Type} K ENVIRONMENT config
    (providers : middlewares.Providers Request) :
  Forall (server.routeOrigin K config)
         (router.routes (server.getRouter K ENVIRONMENT config providers)).
Proof.
  routes_of_getRouter.
  repeat (apply Forall_app; split).
  - routes_origin.
  - apply Stdlib.Lists.List.Forall_forall. intros rt Hin. apply in_map_iff in Hin.
    destruct Hin as [file [<- Hin]]. right; left. now apply constPatterns_root.
  - routes_origin.
  - apply Stdlib.Lists.List.Forall_forall. intros rt Hin. apply in_map_iff in Hin.
    destruct Hin as [file [<- Hin]]. right; left. now apply constPatterns_swagger.
  - routes_origin.
  - destruct (_ && _); routes_origin.
  - routes_origin.
  - destruct (schema.TOTPConfiguration.Disable (schema.TOTP config)) eqn:Htotp;
      cbn [negb]; routes_origin.
  - destruct (schema.WebauthnConfiguration.Disable (schema.Webauthn config))
      eqn:Hwebauthn; cbn [negb]; routes_origin.
  - destruct (schema.DuoAPI config) as [duo|] eqn:Hduo; [|apply Stdlib.Lists.List.Forall_nil].
    assert (Hen : server.methodDisabled config core.Duo = false)
      by (cbn; now rewrite Hduo).
    cbv zeta. routes_origin.
  - destruct (schema.EnablePprof _); routes_origin.
  - destruct (schema.EnableExpvars _); routes_origin.
  - destruct (middlewares.Fosite _); [|apply Stdlib.Lists.List.Forall_nil].
    cbv zeta. routes_origin.
Qed.

(** *** Requests for second-factor endpoints *)

Lemma related_false pattern path :
  router.related pattern path = false ->
  router.mayCapture pattern path = false
  /\ router.mayRedirectTo pattern path = false
  /\ String.eqb pattern path = false.
Proof.
  unfold router.related. intros Hrel. apply orb_false_elim in Hrel.
  destruct Hrel as [Hcap Hred]. repeat split; try assumption.
  destruct (String.eqb_spec pattern path) as [->|]; [|reflexivity].
  unfold router.mayRedirectTo in Hred. now rewrite String.eqb_refl in Hred.
Qed.

Lemma inPatterns_forallb (P : string -> bool) pattern patterns :
  List.forallb P patterns = true ->
  server.inPatterns pattern patterns = true -> P pattern = true.
Proof.
  intros Hall Hin. unfold server.inPatterns in Hin.
  apply existsb_exists in Hin. destruct Hin as [x [Hx Heq]].
  apply String.eqb_eq in Heq. subst x.
  rewrite forallb_forall in Hall. now apply Hall.
Qed.

(** What the twelve endpoint paths have in common, by evaluation. *)
Lemma endpoint_facts meth m p :
  In (m, p) (server.methodEndpoints meth) ->
  In p server.secondFactorPaths
  /\ router.isCleanPath p = true
  /\ router.hasBrace p = false
  /\ server.inPatterns p server.basePatterns = false
  /\ List.forallb (fun pattern => negb (router.related pattern p))
       server.basePatterns = true.
Proof.
  destruct meth; cbn [server.methodEndpoints In]; intros Hin;
    repeat (destruct Hin as [[= <- <-]|Hin]; [vm_compute; tauto |]);
    destruct Hin.
Qed.

Lemma endpoints_apart meth m p meth' m' q :
  In (m, p) (server.methodEndpoints meth) ->
  In (m', q) (server.methodEndpoints meth') ->
  router.related q p = true -> meth' = meth /\ q = p.
Proof.
  destruct meth; cbn [server.methodEndpoints In]; intros Hp;
    repeat (destruct Hp as [[= <- <-]|Hp]; [|]); try destruct Hp;
    destruct meth'; cbn [server.methodEndpoints In]; intros Hq;
    repeat (destruct Hq as [[= <- <-]|Hq]; [|]); try destruct Hq;
    vm_compute; intros Hrel; first [discriminate Hrel | split; reflexivity].
Qed.

Lemma constsClear_spec K p :
  server.constsClear K = true ->
  In p server.secondFactorPaths ->
  (forall pattern, In pattern (server.constPatterns K) ->
                   router.related pattern p = false)
  /\ server.inServerDirs (server.httpServerDirs K) (gostrings.ToLower p) = true.
Proof.
  unfold server.constsClear. intros Hclear Hp.
  rewrite forallb_forall in Hclear. specialize (Hclear p Hp).
  apply andb_prop in Hclear. destruct Hclear as [Hpat Hdir].
  split; [|exact Hdir].
  intros pattern Hin. rewrite forallb_forall in Hpat.
  specialize (Hpat pattern Hin). now apply negb_true_iff in Hpat.
Qed.

Section EndpointRequests.
Context {Request : Type}.
Variables (K : server.Consts) (ENVIRONMENT : string)
          (config : schema.Configuration)
          (providers : middlewares.Providers Request).
Abbreviation theRouter := (server.getRouter K ENVIRONMENT config providers).

Hypothesis Hclear : server.constsClear K = true.

Variables (meth : core.Method2FA) (m : fasthttp.Method) (p : string).
Hypothesis Hendpoint : In (m, p) (server.methodEndpoints meth).

(** A registered route whose pattern could interfere with the endpoint is
    the endpoint itself: the method is enabled and the handler guarded. *)
Lemma related_route_is_endpoint rt :
  In rt (router.routes theRouter) ->
  router.related (router.routePath rt) p = true ->
  server.methodDisabled config meth = false
  /\ router.routePath rt = p
  /\ exists next,
       router.routeHandler rt = server.middleware (server.Require1FA next).
Proof.
  intros Hin Hrel.
  pose proof (getRouter_route_origin K ENVIRONMENT config providers) as Horigin.
  rewrite Stdlib.Lists.List.Forall_forall in Horigin.
  specialize (Horigin rt Hin).
  destruct (endpoint_facts _ _ _ Hendpoint) as (Hp & _ & _ & _ & Hbase).
  destruct Horigin as [Hlit | [Hconst | (meth' & next & Hen & Hep & Hh)]].
  - pose proof (inPatterns_forallb _ _ _ Hbase Hlit) as Hno.
    cbv beta in Hno. rewrite Hrel in Hno. discriminate Hno.
  - destruct (constsClear_spec K p Hclear Hp) as [Hno _].
    rewrite (Hno _ Hconst) in Hrel. discriminate Hrel.
  - destruct (endpoints_apart _ _ _ _ _ _ Hendpoint Hep Hrel) as [-> Hq].
    split; [exact Hen | split; [exact Hq | now exists next]].
Qed.

Lemma no_capture :
  List.existsb (fun rt => router.mayCapture (router.routePath rt) p)
    (router.routes theRouter) = false.
Proof.
  destruct (List.existsb _ _) eqn:Hex; [|reflexivity].
  apply existsb_exists in Hex. destruct Hex as [rt [Hin Hcap]].
  assert (Hrel : router.related (router.routePath rt) p = true)
    by (unfold router.related; now rewrite Hcap).
  destruct (related_route_is_endpoint rt Hin Hrel) as (_ & Hq & _).
  destruct (endpoint_facts _ _ _ Hendpoint) as (_ & _ & Hbrace & _).
  unfold router.mayCapture in Hcap. rewrite Hq, Hbrace in Hcap.
  discriminate Hcap.
Qed.

(** With the method disabled, no registered pattern is related to the
    endpoint. *)
Lemma disabled_unrelated rt :
  server.methodDisabled config meth = true ->
  In rt (router.routes theRouter) ->
  router.related (router.routePath rt) p = false.
Proof.
  intros Hdis Hin.
  destruct (router.related (router.routePath rt) p) eqn:Hrel; [|reflexivity].
  destruct (related_route_is_endpoint rt Hin Hrel) as (Hen & _).
  rewrite Hen in Hdis. discriminate Hdis.
Qed.

End EndpointRequests.

Section DispatchFacts.
Context {H : Type}.
Implicit Types (r : router.Router H) (rs : list (router.Route H)).

Lemma existsb_none {A} (f : A -> bool) (l : list A) :
  (forall x, In x l -> f x = false) -> List.existsb f l = false.
Proof.
  intros Hall. destruct (List.existsb f l) eqn:Hex; [|reflexivity].
  apply existsb_exists in Hex. destruct Hex as [x [Hin Hfx]].
  rewrite (Hall x Hin) in Hfx. discriminate Hfx.
Qed.

Lemma lookupRoute_Some m p rs h :
  router.lookupRoute m p rs = Some h ->
  exists rt, In rt rs /\ router.routeMethod rt = m
             /\ router.routePath rt = p /\ router.routeHandler rt = h.
Proof.
  unfold router.lookupRoute. intros Hl.
  destruct (List.find _ rs) as [rt|] eqn:Hfind; [|discriminate Hl].
  injection Hl as <-. apply find_some in Hfind. destruct Hfind as [Hin Hb].
  apply andb_prop in Hb. destruct Hb as [Hm Hp].
  apply String.eqb_eq in Hp.
  exists rt. repeat split; try assumption.
  destruct (router.routeMethod rt), m; try discriminate Hm; reflexivity.
Qed.

Lemma Method_eqb_refl m : fasthttp.Method_eqb m m = true.
Proof. now destruct m. Qed.

Lemma lookupRoute_registered rt rs :
  In rt rs ->
  exists h, router.lookupRoute (router.routeMethod rt) (router.routePath rt) rs
            = Some h.
Proof.
  intros Hin. unfold router.lookupRoute.
  destruct (List.find _ rs) as [rt'|] eqn:Hfind; [now eexists |].
  pose proof (find_none _ _ Hfind rt Hin) as Hno. cbv beta in Hno.
  now rewrite Method_eqb_refl, String.eqb_refl in Hno.
Qed.

Lemma lookupRoute_unrelated m p rs :
  (forall rt, In rt rs -> router.related (router.routePath rt) p = false) ->
  router.lookupRoute m p rs = None.
Proof.
  intros Hall. destruct (router.lookupRoute m p rs) as [h|] eqn:Hl; [|reflexivity].
  apply lookupRoute_Some in Hl. destruct Hl as (rt & Hin & _ & Hp & _).
  destruct (related_false _ _ (Hall rt Hin)) as (_ & _ & Hne).
  rewrite Hp, String.eqb_refl in Hne. discriminate Hne.
Qed.

(** A clean path that no registered pattern is related to goes to the
    not-found handler, whatever the request method. *)
Lemma Handler_unrelated r ctx :
  router.isCleanPath (fasthttp.Path ctx) = true ->
  (forall rt, In rt (router.routes r) ->
              router.related (router.routePath rt) (fasthttp.Path ctx) = false) ->
  router.Handler r ctx =
    Some (match router.NotFound r with
          | Some h => router.ToHandler h
          | None => router.DefaultNotFound
          end).
Proof.
  intros Hclean Hall. unfold router.Handler. cbv zeta.
  rewrite Hclean. cbn [negb].
  rewrite existsb_none
    by (intros rt Hin; now destruct (related_false _ _ (Hall rt Hin))).
  rewrite (lookupRoute_unrelated _ _ _ Hall).
  rewrite existsb_none
    by (intros rt Hin; destruct (related_false _ _ (Hall rt Hin)) as (_ & -> & _);
        apply andb_false_r).
  assert (Hallowed : router.allowed r (fasthttp.ReqMethod ctx) (fasthttp.Path ctx) = false).
  { unfold router.allowed. apply existsb_none. intros rt Hin.
    destruct (related_false _ _ (Hall rt Hin)) as (_ & _ & ->).
    now rewrite andb_false_r. }
  rewrite Hallowed, andb_false_r.
  now destruct (_ && _).
Qed.

Lemma Handler_found r ctx h :
  router.isCleanPath (fasthttp.Path ctx) = true ->
  List.existsb (fun rt => router.mayCapture (router.routePath rt) (fasthttp.Path ctx))
    (router.routes r) = false ->
  router.lookupRoute (fasthttp.ReqMethod ctx) (fasthttp.Path ctx) (router.routes r)
    = Some h ->
  router.Handler r ctx = Some (router.ToHandler h).
Proof.
  intros Hclean Hcap Hl. unfold router.Handler. cbv zeta.
  now rewrite Hclean, Hcap, Hl.
Qed.

End DispatchFacts.

Lemma getRouter_NotFound {Request : Type} K ENVIRONMENT config
    (providers : middlewares.Providers Request) :
  exists next,
    router.NotFound (server.getRouter K ENVIRONMENT config providers)
    = Some (server.handlerNotFound (server.middleware next)).
Proof.
  unfold server.getRouter; cbv zeta.
  unfold router.set_MethodNotAllowed, router.set_HandleMethodNotAllowed,
    router.set_NotFound.
  cbn [router.NotFound]. now eexists.
Qed.

Ltac find_route :=
  first
    [ left; reflexivity
    | right; find_route ].

Ltac find_segment :=
  first
    [ apply in_or_app; left; cbn [In]; find_route
    | apply in_or_app; right; find_segment
    | cbn [In]; find_route ].

(** Every endpoint of a method that is not disabled is registered. *)
Lemma endpoint_registered {Request : Type} K ENVIRONMENT config
    (providers : middlewares.Providers Request) meth m p :
  server.methodDisabled config meth = false ->
  In (m, p) (server.methodEndpoints meth) ->
  exists h,
    In (router.mkRoute m p h)
       (router.routes (server.getRouter K ENVIRONMENT config providers)).
Proof.
  intros Hen Hin. routes_of_getRouter.
  destruct meth; cbn [server.methodDisabled] in Hen.
  - rewrite Hen. cbn [negb]. cbn [server.methodEndpoints In] in Hin.
    repeat (destruct Hin as [[= <- <-]|Hin]; [eexists; find_segment |]).
    destruct Hin.
  - rewrite Hen. cbn [negb]. cbn [server.methodEndpoints In] in Hin.
    repeat (destruct Hin as [[= <- <-]|Hin]; [eexists; find_segment |]).
    destruct Hin.
  - destruct (schema.DuoAPI config) as [duo|]; [|discriminate Hen].
    cbv zeta. cbn [server.methodEndpoints In] in Hin.
    repeat (destruct Hin as [[= <- <-]|Hin]; [eexists; find_segment |]).
    destruct Hin.
Qed.

(** C3.  For every endpoint of a second-factor method that is registered
    (TOTP, WebAuthn, Duo), the registered handler is of the form
    [middleware(Require1FA(next))], a request for the endpoint reaches that
    handler, and when the session's factor level is below First the answer
    is the Unauthenticated failure: the wrapped handler is not called.
    The package constants are assumed not to produce route patterns that
    interfere with the endpoints ([constsClear]). *)
Theorem second_factor_endpoints_require_first_factor
    {Request : Type} (K : server.Consts) (ENVIRONMENT : string)
    (config : schema.Configuration) (providers : middlewares.Providers Request)
    (meth : core.Method2FA) (m : fasthttp.Method) (p : string)
    (level : core.FactorLevel) (ctx : fasthttp.RequestCtx)
    (Hclear : server.constsClear K = true)
    (Henabled : server.methodDisabled config meth = false)
    (Hendpoint : In (m, p) (server.methodEndpoints meth))
    (Hmethod : fasthttp.ReqMethod ctx = m)
    (Hpath : fasthttp.Path ctx = p)
    (Hlevel : core.level_leb core.First level = false) :
  let r := server.getRouter K ENVIRONMENT config providers in
  exists next,
    router.lookupRoute m p (router.routes r)
      = Some (server.middleware (server.Require1FA next))
    /\ router.Handler r ctx
       = Some (router.ToHandler (server.middleware (server.Require1FA next)))
    /\ server.respond K level ctx r = Some (server.Failed core.Unauthenticated).
Proof.
  intros r. subst r.
  destruct (endpoint_registered K ENVIRONMENT config providers _ _ _
              Henabled Hendpoint) as [h0 Hin0].
  destruct (lookupRoute_registered _ _ Hin0) as [h Hlookup].
  cbn [router.routeMethod router.routePath] in Hlookup.
  destruct (lookupRoute_Some _ _ _ _ Hlookup) as (rt & Hin & _ & Hrp & Hrh).
  assert (Hrel : router.related (router.routePath rt) p = true).
  { rewrite Hrp. unfold router.related, router.mayRedirectTo.
    now rewrite String.eqb_refl, orb_true_r. }
  destruct (related_route_is_endpoint K ENVIRONMENT config providers Hclear
              meth m p Hendpoint rt Hin Hrel) as (_ & _ & next & Hguard).
  subst h. rewrite Hguard in Hlookup.
  exists next.
  assert (Hhandler :
    router.Handler (server.getRouter K ENVIRONMENT config providers) ctx
    = Some (router.ToHandler (server.middleware (server.Require1FA next)))).
  { apply Handler_found.
    - rewrite Hpath. exact (proj1 (proj2 (endpoint_facts _ _ _ Hendpoint))).
    - rewrite Hpath.
      exact (no_capture K ENVIRONMENT config providers Hclear meth m p Hendpoint).
    - rewrite Hmethod, Hpath. exact Hlookup. }
  split; [exact Hlookup | split; [exact Hhandler |]].
  unfold server.respond. rewrite Hhandler.
  cbn [server.serve server.serveRequestHandler]. now rewrite Hlevel.
Qed.

Lemma second_factor_endpoints_require_first_factor_witness :
  let config := server.sampleConfig false false None in
  let ctx := fasthttp.mkRequestCtx fasthttp.POST "/api/secondfactor/totp"
               "/api/secondfactor/totp" None "192.0.2.10" in
  let r := server.getRouter server.sampleConsts "" config server.noProviders in
  server.constsClear server.sampleConsts = true /\
  server.methodDisabled config core.TOTP = false /\
  In (fasthttp.POST, "/api/secondfactor/totp") (server.methodEndpoints core.TOTP) /\
  core.level_leb core.First core.LevelNone = false /\
  exists next,
    router.lookupRoute fasthttp.POST "/api/secondfactor/totp" (router.routes r)
      = Some (server.middleware (server.Require1FA next))
    /\ router.Handler r ctx
       = Some (router.ToHandler (server.middleware (server.Require1FA next)))
    /\ server.respond server.sampleConsts core.LevelNone ctx r
       = Some (server.Failed core.Unauthenticated).
Proof.
  intros config ctx r.
  assert (Hep : In (fasthttp.POST, "/api/secondfactor/totp")
                   (server.methodEndpoints core.TOTP))
    by (cbn; tauto).
  split; [vm_compute; reflexivity |].
  split; [reflexivity |]. split; [exact Hep |]. split; [reflexivity |].
  exact (second_factor_endpoints_require_first_factor
           server.sampleConsts "" config server.noProviders
           core.TOTP fasthttp.POST "/api/secondfactor/totp" core.LevelNone ctx
           (ltac:(vm_compute; reflexivity)) eq_refl Hep eq_refl eq_refl eq_refl).
Defined.

(** C4, the claim as written fails: with TOTP disabled, the start request
    of the TOTP ceremony from a session that holds a first factor is
    answered with the plain status 404, not with a MethodDisabled
    failure. *)
Lemma totp_disabled_start_is_plain_not_found :
  let config := server.sampleConfig true false None in
  let ctx := fasthttp.mkRequestCtx fasthttp.POST
               "/api/secondfactor/totp/identity/start"
               "/api/secondfactor/totp/identity/start" None "192.0.2.10" in
  let r := server.getRouter server.sampleConsts "" config server.noProviders in
  server.methodDisabled config core.TOTP = true /\
  server.respond server.sampleConsts core.First ctx r
    = Some (server.StatusCodeResponse 404) /\
  server.respond server.sampleConsts core.First ctx r
    <> Some (server.Failed core.MethodDisabled).
Proof.
  cbv zeta. split; [reflexivity |].
  assert (Hr : server.respond server.sampleConsts core.First
                 (fasthttp.mkRequestCtx fasthttp.POST
                    "/api/secondfactor/totp/identity/start"
                    "/api/secondfactor/totp/identity/start" None "192.0.2.10")
                 (server.getRouter server.sampleConsts ""
                    (server.sampleConfig true false None) server.noProviders)
               = Some (server.StatusCodeResponse 404))
    by (vm_compute; reflexivity).
  split; [exact Hr |]. rewrite Hr. discriminate.
Qed.

(** C4 (as amended).  For a second-factor method that is turned off, none
    of its endpoints is registered under any HTTP method; a request for
    such an endpoint goes to the router's not-found handler
    ([handlerNotFound]) and is answered with the status 404.  The package
    constants are assumed not to interfere with the endpoints and to list
    their directory in [httpServerDirs] ([constsClear]). *)
Theorem disabled_method_endpoints_not_found
    {Request : Type} (K : server.Consts) (ENVIRONMENT : string)
    (config : schema.Configuration) (providers : middlewares.Providers Request)
    (meth : core.Method2FA) (m : fasthttp.Method) (p : string)
    (level : core.FactorLevel) (ctx : fasthttp.RequestCtx)
    (Hclear : server.constsClear K = true)
    (Hdisabled : server.methodDisabled config meth = true)
    (Hendpoint : In (m, p) (server.methodEndpoints meth))
    (Hpath : fasthttp.Path ctx = p) :
  let r := server.getRouter K ENVIRONMENT config providers in
  (forall m', router.lookupRoute m' p (router.routes r) = None)
  /\ (exists next,
        router.Handler r ctx = Some (router.ToHandler (server.handlerNotFound next)))
  /\ server.respond K level ctx r
     = Some (server.StatusCodeResponse fasthttp.StatusNotFound).
Proof.
  intros r. subst r.
  pose proof (disabled_unrelated K ENVIRONMENT config providers Hclear
                meth m p Hendpoint) as Hunrel.
  destruct (endpoint_facts _ _ _ Hendpoint) as (Hp & Hclean & _).
  destruct (getRouter_NotFound K ENVIRONMENT config providers) as [next Hnf].
  assert (Hhandler :
    router.Handler (server.getRouter K ENVIRONMENT config providers) ctx
    = Some (router.ToHandler (server.handlerNotFound (server.middleware next)))).
  { rewrite Handler_unrelated.
    - now rewrite Hnf.
    - now rewrite Hpath.
    - rewrite Hpath. intros rt Hin. now apply Hunrel. }
  split; [| split].
  - intros m'. apply lookupRoute_unrelated. intros rt Hin. now apply Hunrel.
  - eexists. exact Hhandler.
  - unfold server.respond. rewrite Hhandler. cbn [server.serve].
    rewrite Hpath.
    now rewrite (proj2 (constsClear_spec K p Hclear Hp)).
Qed.

Lemma disabled_method_endpoints_not_found_witness :
  let config := server.sampleConfig false true None in
  let ctx := fasthttp.mkRequestCtx fasthttp.GET
               "/api/secondfactor/webauthn/assertion"
               "/api/secondfactor/webauthn/assertion" None "192.0.2.10" in
  let r := server.getRouter server.sampleConsts "" config server.noProviders in
  server.constsClear server.sampleConsts = true /\
  server.methodDisabled config core.WebAuthn = true /\
  In (fasthttp.GET, "/api/secondfactor/webauthn/assertion")
     (server.methodEndpoints core.WebAuthn) /\
  (forall m', router.lookupRoute m' "/api/secondfactor/webauthn/assertion"
                (router.routes r) = None)
  /\ (exists next,
        router.Handler r ctx = Some (router.ToHandler (server.handlerNotFound next)))
  /\ server.respond server.sampleConsts core.First ctx r
     = Some (server.StatusCodeResponse fasthttp.StatusNotFound).
Proof.
  intros config ctx r.
  assert (Hep : In (fasthttp.GET, "/api/secondfactor/webauthn/assertion")
                   (server.methodEndpoints core.WebAuthn))
    by (cbn; tauto).
  split; [vm_compute; reflexivity |].
  split; [reflexivity |]. split; [exact Hep |].
  exact (disabled_method_endpoints_not_found
           server.sampleConsts "" config server.noProviders
           core.WebAuthn fasthttp.GET "/api/secondfactor/webauthn/assertion"
           core.First ctx
           (ltac:(vm_compute; reflexivity)) eq_refl Hep eq_refl).
Defined.

(* --------------------------------------------------------------------- *)
(** ** Access Control Policy Engine                                        *)
(* --------------------------------------------------------------------- *)

Section PolicyFacts.
Import policy.
Context {DomainPattern ResourcePattern : Type}.
Variable domainMatches : DomainPattern -> string -> bool.
Variable resourceMatches : ResourcePattern -> string -> bool.
Variable default : DefaultPolicy.
Variable target : Target.
Variable session : Session.

Abbreviation matches rule :=
  (ruleMatches domainMatches resourceMatches rule target session).
Abbreviation evaluate rules :=
  (Evaluate domainMatches resourceMatches rules default target session).

Lemma Evaluate_skip_prefix
    (pre rest : list (Rule DomainPattern ResourcePattern)) :
  Forall (fun rule => matches rule = false) pre ->
  evaluate (pre ++ rest) = evaluate rest.
Proof.
  induction 1 as [|rule pre Hrule _ IH]; cbn [app Evaluate]; [reflexivity |].
  now rewrite Hrule.
Qed.

Lemma Evaluate_insert
    (pre post : list (Rule DomainPattern ResourcePattern)) extra :
  matches extra = false ->
  evaluate (pre ++ extra :: post) = evaluate (pre ++ post).
Proof.
  intros Hextra.
  induction pre as [|rule pre IH]; cbn [app Evaluate].
  - now rewrite Hextra.
  - destruct (matches rule); [reflexivity | exact IH].
Qed.

End PolicyFacts.

(** C7.  For every ordered rule set, default policy, target and session:
    the decision is the one of the first rule, in declaration order, whose
    matchers all match; when no rule matches it is the one of the default
    policy; and a rule that does not match can be inserted at any position
    without changing the decision. *)
Theorem Evaluate_first_match_wins
    {DomainPattern ResourcePattern : Type}
    (domainMatches : DomainPattern -> string -> bool)
    (resourceMatches : ResourcePattern -> string -> bool)
    (rules : list (policy.Rule DomainPattern ResourcePattern))
    (default : policy.DefaultPolicy)
    (target : policy.Target) (session : policy.Session) :
  let matches rule :=
    policy.ruleMatches domainMatches resourceMatches rule target session in
  let evaluate rules :=
    policy.Evaluate domainMatches resourceMatches rules default target session in
  (forall pre rule post,
      rules = pre ++ rule :: post ->
      Forall (fun earlier => matches earlier = false) pre ->
      matches rule = true ->
      evaluate rules
      = policy.decide (policy.required_level rule)
          (policy.required_methods rule) session)
  /\ (Forall (fun rule => matches rule = false) rules ->
      evaluate rules
      = policy.decide (policy.default_level default)
          (policy.default_methods default) session)
  /\ (forall pre post extra,
        rules = pre ++ post ->
        matches extra = false ->
        evaluate (pre ++ extra :: post) = evaluate rules).
Proof.
  intros matches evaluate. subst matches evaluate. cbv beta.
  split; [| split].
  - intros pre rule post -> Hpre Hrule.
    rewrite Evaluate_skip_prefix by exact Hpre.
    cbn [policy.Evaluate]. now rewrite Hrule.
  - intros Hnone.
    rewrite <- (app_nil_r rules).
    now rewrite Evaluate_skip_prefix by exact Hnone.
  - intros pre post extra -> Hextra. now apply Evaluate_insert.
Qed.

(** An override placed first: the bypass rule for the health path wins over
    the broader two-factor rule; an unrelated rule in between changes
    nothing. *)
Example Evaluate_override_example :
  let prefixMatch (pattern s : string) := String.prefix pattern s in
  let health := policy.mkRule "app.example.com" "/health" [] [] policy.Bypass [] in
  let admin := policy.mkRule "other.example.com" "/" [] [] policy.OneFactor [] in
  let all := policy.mkRule "app.example.com" "/" [] [] policy.TwoFactor [] in
  let default := policy.mkDefaultPolicy policy.TwoFactor [] in
  let target p := policy.mkTarget "https" "app.example.com" p 3232235777 in
  policy.Evaluate String.eqb prefixMatch [health; all] default
    (target "/health") policy.anonymous = policy.Allow
  /\ policy.Evaluate String.eqb prefixMatch [health; admin; all] default
       (target "/health") policy.anonymous = policy.Allow
  /\ policy.Evaluate String.eqb prefixMatch [health; admin; all] default
       (target "/private") policy.anonymous
     = policy.DenyRedirect policy.TwoFactor [].
Proof. repeat split. Qed.

(* --------------------------------------------------------------------- *)
(** ** Verification Workflow                                               *)
(* --------------------------------------------------------------------- *)

Section WorkflowFacts.
Import policy workflow.
Context {DomainPattern ResourcePattern : Type}.
Variable domainMatches : DomainPattern -> string -> bool.
Variable resourceMatches : ResourcePattern -> string -> bool.
Variable store : SessionStore.
Variable rules : list (Rule DomainPattern ResourcePattern).
Variable default : DefaultPolicy.
Variables now inactivity : Z.

Lemma failedIn_single op ok : failedIn [(op, ok)] -> ok = false.
Proof. intros [op' [H|[]]]. now injection H. Qed.

Lemma resolveSession_failed req :
  failedIn (snd (resolveSession store now inactivity req)) ->
  fst (resolveSession store now inactivity req) = None.
Proof.
  unfold resolveSession, load, save, bind, ret.
  destruct (cookie req) as [key|]; cbn; [| intros [op []]].
  destruct (Load store key) as [s| |]; cbn.
  - destruct (expires_at s <? now); cbn.
    + intros [op [H|[]]]. discriminate H.
    + destruct (remember_me s); cbn.
      * intros [op [H|[]]]. discriminate H.
      * destruct (Save store key _ inactivity); cbn; [|reflexivity].
        intros [op [H|[H|[]]]]; discriminate H.
  - intros [op [H|[]]]. discriminate H.
  - reflexivity.
Qed.

End WorkflowFacts.

(** C5.  Whenever a store operation performed by the Verification Workflow
    fails, the result of the verification is Deny (in particular it is not
    Allow), for every request, rule set, store and session state. *)
Theorem Verify_fail_closed
    {DomainPattern ResourcePattern : Type}
    (domainMatches : DomainPattern -> string -> bool)
    (resourceMatches : ResourcePattern -> string -> bool)
    (store : workflow.SessionStore)
    (rules : list (policy.Rule DomainPattern ResourcePattern))
    (default : policy.DefaultPolicy) (now inactivity : Z)
    (req : workflow.VerifyRequest)
    (result : workflow.VerifyResult) (trace : list workflow.StoreEvent)
    (Hrun : workflow.Verify domainMatches resourceMatches store rules default
              now inactivity req = (result, trace))
    (Hfailed : workflow.failedIn trace) :
  result = workflow.ResultDeny.
Proof.
  unfold workflow.Verify, workflow.bind in Hrun.
  pose proof (resolveSession_failed store now inactivity req) as Hres.
  destruct (workflow.resolveSession store now inactivity req) as [[session|] t];
    cbn [fst snd] in Hres.
  - cbn [workflow.ret] in Hrun. rewrite app_nil_r in Hrun.
    injection Hrun as <- <-. specialize (Hres Hfailed). discriminate Hres.
  - now injection Hrun as <- <-.
Qed.

Lemma Verify_fail_closed_witness :
  let store := workflow.mkSessionStore
                 (fun _ => workflow.LoadUnavailable)
                 (fun _ _ _ => workflow.Saved) in
  let rules := [policy.mkRule "app.example.com" "/" [] [] policy.Bypass []] in
  let default := policy.mkDefaultPolicy policy.TwoFactor [] in
  let req := workflow.mkVerifyRequest
               (policy.mkTarget "https" "app.example.com" "/" 3232235777)
               (Some "session-1") true in
  workflow.Verify String.eqb String.prefix store rules default 100 60 req
    = (workflow.ResultDeny, [(workflow.OpLoad "session-1", false)])
  /\ workflow.failedIn [(workflow.OpLoad "session-1", false)]
  /\ workflow.ResultDeny = workflow.ResultDeny.
Proof.
  intros store rules default req.
  assert (Hfailed : workflow.failedIn [(workflow.OpLoad "session-1", false)])
    by (exists (workflow.OpLoad "session-1"); left; reflexivity).
  split; [reflexivity | split; [exact Hfailed |]].
  exact (Verify_fail_closed String.eqb String.prefix store rules default 100 60
           req workflow.ResultDeny [(workflow.OpLoad "session-1", false)]
           eq_refl Hfailed).
Defined.

(** The same request is allowed once the store answers: the bypass rule
    applies, so the denial above is due to the store failure alone. *)
Example Verify_allows_when_store_answers :
  let store := workflow.mkSessionStore
                 (fun _ => workflow.NotFound) (fun _ _ _ => workflow.Saved) in
  let rules := [policy.mkRule "app.example.com" "/" [] [] policy.Bypass []] in
  let default := policy.mkDefaultPolicy policy.TwoFactor [] in
  let url := policy.mkTarget "https" "app.example.com" "/" 3232235777 in
  workflow.Verify String.eqb String.prefix store rules default 100 60
    (workflow.mkVerifyRequest url (Some "session-1") true)
  = (workflow.ResultAllow None [] url, [(workflow.OpLoad "session-1", true)]).
Proof. reflexivity. Qed.

(* --------------------------------------------------------------------- *)
(** ** Ceremony tokens: two concurrent Finish calls                        *)
(* --------------------------------------------------------------------- *)

Section CeremonyFacts.
Import ceremony.
Context {Proof : Type}.
Variable verify : Token -> Proof -> option core.ErrorKind.
Variables cA cB : Call Proof.
Variables (id : string) (tok : Token).

Hypothesis HidA : callToken cA = id.
Hypothesis HidB : callToken cB = id.
Hypothesis HvalidA : tokenValid tok cA = true.
Hypothesis HvalidB : tokenValid tok cB = true.
Hypothesis HproofA : verify tok (callProof cA) = None.
Hypothesis HproofB : verify tok (callProof cB) = None.

Lemma step_progress c (store : gmap string Token) th :
  progress (snd (step verify c store th)) = Nat.min 2 (S (progress th)).
Proof.
  destruct th as [|[t|]|r]; cbn; try reflexivity.
  now destruct (TakeIfValid c store).
Qed.

Lemma progress_le th : (progress th <= 2)%nat.
Proof. destruct th; cbn; lia. Qed.

Lemma run_progress schedule s :
  progress (threadA (run verify cA cB schedule s))
    = Nat.min 2 (progress (threadA s) + turns true schedule)
  /\ progress (threadB (run verify cA cB schedule s))
     = Nat.min 2 (progress (threadB s) + turns false schedule).
Proof.
  revert s. induction schedule as [|[|] rest IH]; intros s; cbn [run].
  - pose proof (progress_le (threadA s)). pose proof (progress_le (threadB s)).
    change (turns true []) with 0%nat. change (turns false []) with 0%nat.
    split; lia.
  - pose proof (step_progress cA (tokens s) (threadA s)) as Hstep.
    destruct (step verify cA (tokens s) (threadA s)) as [store' a'].
    cbn [snd] in Hstep. destruct (IH (mkSystem store' a' (threadB s))) as [HA HB].
    cbn [threadA threadB] in HA, HB.
    change (turns true (true :: rest)) with (S (turns true rest)).
    change (turns false (true :: rest)) with (turns false rest).
    rewrite HA, HB, Hstep. split; lia.
  - pose proof (step_progress cB (tokens s) (threadB s)) as Hstep.
    destruct (step verify cB (tokens s) (threadB s)) as [store' b'].
    cbn [snd] in Hstep. destruct (IH (mkSystem store' (threadA s) b')) as [HA HB].
    cbn [threadA threadB] in HA, HB.
    change (turns true (false :: rest)) with (turns true rest).
    change (turns false (false :: rest)) with (S (turns false rest)).
    rewrite HA, HB, Hstep. split; lia.
Qed.

(** The call that finds the token consumes it. *)
Lemma step_takes c (store : gmap string Token) :
  callToken c = id -> tokenValid tok c = true -> store !! id = Some tok ->
  step verify c store Pending = (delete id store, Took (Some tok)).
Proof.
  intros Hid Hvalid Hstore. cbn. unfold TakeIfValid.
  now rewrite Hid, Hstore, Hvalid.
Qed.

Lemma step_holder c (store : gmap string Token) th :
  verify tok (callProof c) = None -> holds tok th ->
  fst (step verify c store th) = store /\ holds tok (snd (step verify c store th)).
Proof.
  intros Hproof [-> | ->]; cbn.
  - rewrite Hproof. split; [reflexivity | now right].
  - split; [reflexivity | now right].
Qed.

Lemma step_misser c (store : gmap string Token) th :
  callToken c = id -> store !! id = None -> misses th ->
  fst (step verify c store th) = store /\ misses (snd (step verify c store th)).
Proof.
  intros Hid Hstore [-> | [-> | ->]]; cbn.
  - unfold TakeIfValid. rewrite Hid, Hstore. cbn.
    split; [reflexivity | right; now left].
  - split; [reflexivity | right; now right].
  - split; [reflexivity | right; now right].
Qed.

Lemma run_consistent schedule s :
  consistent id tok s -> consistent id tok (run verify cA cB schedule s).
Proof.
  revert s. induction schedule as [|[|] rest IH]; intros s Hs; cbn [run];
    [exact Hs | |].
  - destruct Hs as [(Hstore & Ha & Hb) | [(Hstore & Ha & Hb) | (Hstore & Ha & Hb)]].
    + rewrite Ha, (step_takes cA _ HidA HvalidA Hstore). apply IH.
      right; left. cbn. rewrite lookup_delete_eq, Hb.
      repeat split; [now left | now left].
    + destruct (step_holder cA (tokens s) _ HproofA Ha) as [Hst Hth].
      destruct (step verify cA (tokens s) (threadA s)) as [store' a'].
      cbn [fst snd] in Hst, Hth. subst store'. apply IH.
      right; left. now cbn.
    + destruct (step_misser cA (tokens s) _ HidA Hstore Ha) as [Hst Hth].
      destruct (step verify cA (tokens s) (threadA s)) as [store' a'].
      cbn [fst snd] in Hst, Hth. subst store'. apply IH.
      right; right. now cbn.
  - destruct Hs as [(Hstore & Ha & Hb) | [(Hstore & Ha & Hb) | (Hstore & Ha & Hb)]].
    + rewrite Hb, (step_takes cB _ HidB HvalidB Hstore). apply IH.
      right; right. cbn. rewrite lookup_delete_eq, Ha.
      repeat split; [now left | now left].
    + destruct (step_misser cB (tokens s) _ HidB Hstore Hb) as [Hst Hth].
      destruct (step verify cB (tokens s) (threadB s)) as [store' b'].
      cbn [fst snd] in Hst, Hth. subst store'. apply IH.
      right; left. now cbn.
    + destruct (step_holder cB (tokens s) _ HproofB Hb) as [Hst Hth].
      destruct (step verify cB (tokens s) (threadB s)) as [store' b'].
      cbn [fst snd] in Hst, Hth. subst store'. apply IH.
      right; right. now cbn.
Qed.

Lemma holds_done th : holds tok th -> progress th = 2%nat -> th = Done Finished.
Proof. intros [-> | ->]; cbn; [discriminate | reflexivity]. Qed.

Lemma misses_done th :
  misses th -> progress th = 2%nat ->
  th = Done (FinishFailed core.InvalidOrExpiredToken).
Proof. intros [-> | [-> | ->]]; cbn; try discriminate; reflexivity. Qed.

End CeremonyFacts.

(** C6.  Two Finish calls present the same stored, valid token with proofs
    their verifier accepts.  In every interleaving of their atomic actions
    in which both calls run to their end, exactly one call succeeds, the
    other fails with InvalidOrExpiredToken, and the token is gone from the
    store.  The check-and-delete of the token is one atomic action
    ([TakeIfValid]). *)
Theorem concurrent_finish_exactly_one_success
    {Proof : Type} (verify : ceremony.Token -> Proof -> option core.ErrorKind)
    (cA cB : ceremony.Call Proof) (id : string) (tok : ceremony.Token)
    (store : gmap string ceremony.Token) (schedule : list bool)
    (HidA : ceremony.callToken cA = id)
    (HidB : ceremony.callToken cB = id)
    (HvalidA : ceremony.tokenValid tok cA = true)
    (HvalidB : ceremony.tokenValid tok cB = true)
    (HproofA : verify tok (ceremony.callProof cA) = None)
    (HproofB : verify tok (ceremony.callProof cB) = None)
    (Hstored : store !! id = Some tok)
    (HturnsA : (2 <= ceremony.turns true schedule)%nat)
    (HturnsB : (2 <= ceremony.turns false schedule)%nat) :
  let final := ceremony.run verify cA cB schedule
                 (ceremony.mkSystem store ceremony.Pending ceremony.Pending) in
  ((ceremony.threadA final = ceremony.Done ceremony.Finished
    /\ ceremony.threadB final
       = ceremony.Done (ceremony.FinishFailed core.InvalidOrExpiredToken))
   \/ (ceremony.threadA final
       = ceremony.Done (ceremony.FinishFailed core.InvalidOrExpiredToken)
       /\ ceremony.threadB final = ceremony.Done ceremony.Finished))
  /\ ceremony.tokens final !! id = None.
Proof.
  intros final.
  set (start := ceremony.mkSystem store ceremony.Pending ceremony.Pending) in *.
  assert (Hstart : ceremony.consistent id tok start)
    by (left; now cbn).
  pose proof (run_consistent verify cA cB id tok HidA HidB HvalidA HvalidB
                HproofA HproofB schedule start Hstart) as Hfinal.
  destruct (run_progress verify cA cB schedule start) as [HprogA HprogB].
  fold final in Hfinal, HprogA, HprogB.
  cbn [ceremony.threadA ceremony.threadB start ceremony.progress] in HprogA, HprogB.
  assert (HdoneA : ceremony.progress (ceremony.threadA final) = 2%nat) by lia.
  assert (HdoneB : ceremony.progress (ceremony.threadB final) = 2%nat) by lia.
  destruct Hfinal as [(_ & Ha & _) | [(Hgone & Ha & Hb) | (Hgone & Ha & Hb)]].
  - rewrite Ha in HdoneA. discriminate HdoneA.
  - split; [left | exact Hgone].
    split; [exact (holds_done tok _ Ha HdoneA) | exact (misses_done _ Hb HdoneB)].
  - split; [right | exact Hgone].
    split; [exact (misses_done _ Ha HdoneA) | exact (holds_done tok _ Hb HdoneB)].
Qed.

Lemma concurrent_finish_exactly_one_success_witness :
  let tok := ceremony.mkToken (core.TOTP, ceremony.Authenticate) "john" "n-41" 100 400 in
  let cA := ceremony.mkCall "n-41" "john" (core.TOTP, ceremony.Authenticate) "123456" 150 in
  let cB := ceremony.mkCall "n-41" "john" (core.TOTP, ceremony.Authenticate) "123456" 151 in
  let verify := fun (_ : ceremony.Token) (_ : string) => @None core.ErrorKind in
  let store : gmap string ceremony.Token := {[ "n-41" := tok ]} in
  let schedule := [true; false; false; true] in
  let final := ceremony.run verify cA cB schedule
                 (ceremony.mkSystem store ceremony.Pending ceremony.Pending) in
  ceremony.tokenValid tok cA = true /\
  ceremony.tokenValid tok cB = true /\
  store !! "n-41" = Some tok /\
  (2 <= ceremony.turns true schedule)%nat /\
  (2 <= ceremony.turns false schedule)%nat /\
  ((ceremony.threadA final = ceremony.Done ceremony.Finished
    /\ ceremony.threadB final
       = ceremony.Done (ceremony.FinishFailed core.InvalidOrExpiredToken))
   \/ (ceremony.threadA final
       = ceremony.Done (ceremony.FinishFailed core.InvalidOrExpiredToken)
       /\ ceremony.threadB final = ceremony.Done ceremony.Finished))
  /\ ceremony.tokens final !! "n-41" = None.
Proof.
  intros tok cA cB verify store schedule final.
  assert (Hstored : store !! "n-41" = Some tok) by (vm_compute; reflexivity).
  assert (HtA : (2 <= ceremony.turns true schedule)%nat) by (vm_compute; lia).
  assert (HtB : (2 <= ceremony.turns false schedule)%nat) by (vm_compute; lia).
  split; [reflexivity |]. split; [reflexivity |]. split; [exact Hstored |].
  split; [exact HtA |]. split; [exact HtB |].
  exact (concurrent_finish_exactly_one_success verify cA cB "n-41" tok store
           schedule eq_refl eq_refl eq_refl eq_refl eq_refl eq_refl
           Hstored HtA HtB).
Defined.

(** A replay after a completed Finish fails with InvalidOrExpiredToken. *)
Example finish_replay_fails :
  let tok := ceremony.mkToken (core.TOTP, ceremony.Authenticate) "john" "n-41" 100 400 in
  let c := ceremony.mkCall "n-41" "john" (core.TOTP, ceremony.Authenticate) "123456" 150 in
  let verify := fun (_ : ceremony.Token) (_ : string) => @None core.ErrorKind in
  let final := ceremony.run verify c c [true; true; false; false]
                 (ceremony.mkSystem {[ "n-41" := tok ]}
                    ceremony.Pending ceremony.Pending) in
  ceremony.threadA final = ceremony.Done ceremony.Finished
  /\ ceremony.threadB final
     = ceremony.Done (ceremony.FinishFailed core.InvalidOrExpiredToken).
Proof. vm_compute. split; reflexivity. Qed.

(* --------------------------------------------------------------------- *)
(** ** The revocation endpoint exists only with a provider                 *)
(* --------------------------------------------------------------------- *)

Ltac no_such_route Heq :=
  repeat match goal with
    | H : In _ (_ ++ _) |- _ => apply in_app_or in H; destruct H as [H|H]
    | H : In _ (List.map _ _) |- _ =>
        apply in_map_iff in H; destruct H as [? [<- _]]; discriminate Heq
    | H : In _ (if ?b then _ else _) |- _ => destruct b
    | H : In _ (match ?o with Some _ => _ | None => _ end) |- _ => destruct o
    | H : In _ (_ :: _) |- _ => destruct H as [<- | H]; [discriminate Heq |]
    | H : In _ [] |- _ => destruct H
    end.

(** [getHandler] registers [OAuthRevocationPOST] only when the OpenID
    Connect provider is set, which is the premise of the statement about
    the handler. *)
Lemma revocation_route_needs_provider {Request : Type} K ENVIRONMENT config
    (providers : middlewares.Providers Request) rt policy :
  In rt (router.routes (server.getRouter K ENVIRONMENT config providers)) ->
  router.routeHandler rt
  = server.Middleware policy
      (server.middleware
         (server.NewHTTPToAutheliaHandlerAdaptor server.OAuthRevocationPOST)) ->
  exists p, middlewares.Fosite (middlewares.OpenIDConnect providers) = Some p.
Proof.
  routes_of_getRouter.
  destruct (middlewares.Fosite (middlewares.OpenIDConnect providers)) as [p|];
    [intros _ _; now exists p |].
  intros Hin Heq. exfalso. rewrite app_nil_r in Hin.
  no_such_route Heq.
Qed.

(* --------------------------------------------------------------------- *)
(** ** The configured router on sample requests                            *)
(* --------------------------------------------------------------------- *)

Example respond_health :
  server.respond server.sampleConsts core.LevelNone
    (fasthttp.mkRequestCtx fasthttp.GET "/api/health" "/api/health" None "192.0.2.10")
    (server.getRouter server.sampleConsts "" (server.sampleConfig false false None)
       server.noProviders)
  = Some (server.Calls (server.Func server.HealthGET)).
Proof. vm_compute. reflexivity. Qed.

Example respond_wrong_method :
  server.respond server.sampleConsts core.LevelNone
    (fasthttp.mkRequestCtx fasthttp.POST "/api/health" "/api/health" None "192.0.2.10")
    (server.getRouter server.sampleConsts "" (server.sampleConfig false false None)
       server.noProviders)
  = Some (server.StatusCodeResponse 405).
Proof. vm_compute. reflexivity. Qed.

Example respond_unknown_api_path :
  server.respond server.sampleConsts core.LevelNone
    (fasthttp.mkRequestCtx fasthttp.GET "/api/nothing" "/api/nothing" None "192.0.2.10")
    (server.getRouter server.sampleConsts "" (server.sampleConfig false false None)
       server.noProviders)
  = Some (server.StatusCodeResponse 404).
Proof. vm_compute. reflexivity. Qed.

Example respond_totp_with_first_factor :
  server.respond server.sampleConsts core.First
    (fasthttp.mkRequestCtx fasthttp.POST "/api/secondfactor/totp"
       "/api/secondfactor/totp" None "192.0.2.10")
    (server.getRouter server.sampleConsts "" (server.sampleConfig false false None)
       server.noProviders)
  = Some (server.Calls (server.Func server.TimeBasedOneTimePasswordPOST)).
Proof. vm_compute. reflexivity. Qed.

Example respond_static_is_left_open :
  server.respond server.sampleConsts core.LevelNone
    (fasthttp.mkRequestCtx fasthttp.GET "/static/js/main.js" "/static/js/main.js"
       None "192.0.2.10")
    (server.getRouter server.sampleConsts "" (server.sampleConfig false false None)
       server.noProviders)
  = None.
Proof. vm_compute. reflexivity. Qed.

(* ===================================================================== *)
(** * Part III.  Further properties of the embedded code                   *)
(* ===================================================================== *)

(* --------------------------------------------------------------------- *)
(** ** ValidatePasswordPolicy: frame, idempotence, what is not checked     *)
(* --------------------------------------------------------------------- *)

(** X1.  [ValidatePasswordPolicy] changes nothing of the configuration but
    [Standard.MinLength] and [Standard.MaxLength]: the two [Enabled]
    switches and the four [Require...] options come back as they went
    in. *)
Theorem ValidatePasswordPolicy_frame
    (IsBoolCountLessThanN : Z -> bool -> list bool -> bool)
    (Default config : schema.PasswordPolicyConfiguration)
    (v : schema.StructValidator) :
  let config' :=
    fst (validator.ValidatePasswordPolicy IsBoolCountLessThanN Default config v) in
  schema.ZXCVBN config' = schema.ZXCVBN config
  /\ Std.Enabled (schema.Standard config') = Std.Enabled (schema.Standard config)
  /\ Std.RequireUppercase (schema.Standard config')
     = Std.RequireUppercase (schema.Standard config)
  /\ Std.RequireLowercase (schema.Standard config')
     = Std.RequireLowercase (schema.Standard config)
  /\ Std.RequireNumber (schema.Standard config')
     = Std.RequireNumber (schema.Standard config)
  /\ Std.RequireSpecial (schema.Standard config')
     = Std.RequireSpecial (schema.Standard config).
Proof.
  cbv zeta. destruct config as [[en minl maxl ru rl rn rs] zx].
  unfold validator.ValidatePasswordPolicy. cbn.
  split_ifs; cbn; repeat split; reflexivity.
Qed.

(** X2.  Validating twice changes the configuration no further than
    validating once, whatever the default configuration and the validators
    are. *)
Theorem ValidatePasswordPolicy_idempotent
    (IsBoolCountLessThanN : Z -> bool -> list bool -> bool)
    (Default config : schema.PasswordPolicyConfiguration)
    (v v' : schema.StructValidator) :
  let once :=
    fst (validator.ValidatePasswordPolicy IsBoolCountLessThanN Default config v) in
  fst (validator.ValidatePasswordPolicy IsBoolCountLessThanN Default once v')
  = once.
Proof.
  cbv zeta. destruct config as [[en minl maxl ru rl rn rs] zx].
  destruct Default as [[den dminl dmaxl dru drl drn drs] dzx].
  unfold validator.ValidatePasswordPolicy. cbn.
  destruct en; cbn; [| split_ifs; reflexivity].
  destruct (Z.eqb_spec minl 0) as [->|Hminl];
    destruct (Z.eqb_spec maxl 0) as [->|Hmaxl]; cbn;
    try destruct (Z.ltb_spec minl 0); cbn;
    repeat match goal with
      | |- context [negb ?b] => destruct (negb b); cbn
      end;
    repeat match goal with
      | |- context [?x =? 0] =>
          destruct (Z.eqb_spec x 0); cbn; subst; try lia
      | |- context [?x <? 0] =>
          destruct (Z.ltb_spec x 0); cbn; try lia
      end;
    try reflexivity.
Qed.

(** X3.  One call never touches the warnings, keeps the errors that were
    already there, and appends at most two errors in a fixed order: the
    "multiple mechanisms" error first, the "min_length" error second. *)
Theorem ValidatePasswordPolicy_appends_errors
    (IsBoolCountLessThanN : Z -> bool -> list bool -> bool)
    (Default config : schema.PasswordPolicyConfiguration)
    (v : schema.StructValidator) :
  let r := validator.ValidatePasswordPolicy IsBoolCountLessThanN Default config v in
  let multiple := validator.errPasswordPolicyMultipleDefined in
  let minLength :=
    validator.errFmtPasswordPolicyMinLengthNotGreaterThanZero
      (Std.MinLength (schema.Standard config)) in
  schema.Warnings (snd r) = schema.Warnings v
  /\ exists pushed,
       schema.Errors (snd r) = schema.Errors v ++ pushed
       /\ (pushed = [] \/ pushed = [multiple] \/ pushed = [minLength]
           \/ pushed = [multiple; minLength]).
Proof.
  cbv zeta. split; [apply ValidatePasswordPolicy_warnings |].
  exists (validator.pushedErrors IsBoolCountLessThanN config).
  split; [apply ValidatePasswordPolicy_errors |].
  unfold validator.pushedErrors.
  destruct (negb _); destruct (_ && _); cbn; tauto.
Qed.

(** X4.  With the standard mechanism switched off the configuration comes
    back unchanged and no "min_length" error is pushed, even for a
    negative [MinLength]: the only error possible is the "multiple
    mechanisms" one. *)
Theorem ValidatePasswordPolicy_standard_off
    (IsBoolCountLessThanN : Z -> bool -> list bool -> bool)
    (Default config : schema.PasswordPolicyConfiguration)
    (v : schema.StructValidator)
    (Hoff : Std.Enabled (schema.Standard config) = false) :
  let r := validator.ValidatePasswordPolicy IsBoolCountLessThanN Default config v in
  fst r = config
  /\ (schema.Errors (snd r) = schema.Errors v
      \/ schema.Errors (snd r)
         = schema.Errors v ++ [validator.errPasswordPolicyMultipleDefined]).
Proof.
  cbv zeta. split; [now apply ValidatePasswordPolicy_disabled |].
  rewrite ValidatePasswordPolicy_errors. unfold validator.pushedErrors.
  rewrite Hoff. cbn [andb]. rewrite app_nil_r.
  destruct (negb _); [right; reflexivity | left; now rewrite app_nil_r].
Qed.

Lemma ValidatePasswordPolicy_standard_off_witness :
  let config := schema.mkPasswordPolicyConfiguration
                  (Std.mk false (-5) 0 false false false false) (Zx.mk true) in
  let r := validator.ValidatePasswordPolicy validator.IsBoolCountLessThanN_inst
             validator.DefaultPasswordPolicyConfiguration_inst config
             schema.NewStructValidator in
  Std.Enabled (schema.Standard config) = false
  /\ fst r = config
  /\ (schema.Errors (snd r) = []
      \/ schema.Errors (snd r)
         = [] ++ [validator.errPasswordPolicyMultipleDefined]).
Proof.
  intros config r. split; [reflexivity |].
  exact (ValidatePasswordPolicy_standard_off validator.IsBoolCountLessThanN_inst
           validator.DefaultPasswordPolicyConfiguration_inst config
           schema.NewStructValidator eq_refl).
Defined.

(** X5.  With the standard mechanism on and a positive default, the
    validated [MinLength] is positive exactly when the configured one was
    not negative: 0 turns into the default, a positive value stays, a
    negative one stays negative. *)
Theorem ValidatePasswordPolicy_min_length_positive
    (IsBoolCountLessThanN : Z -> bool -> list bool -> bool)
    (Default config : schema.PasswordPolicyConfiguration)
    (v : schema.StructValidator)
    (Hon : Std.Enabled (schema.Standard config) = true)
    (Hdefault : 0 < Std.MinLength (schema.Standard Default)) :
  let r := validator.ValidatePasswordPolicy IsBoolCountLessThanN Default config v in
  0 < Std.MinLength (schema.Standard (fst r))
  <-> 0 <= Std.MinLength (schema.Standard config).
Proof.
  cbv zeta. destruct config as [[en minl maxl ru rl rn rs] zx].
  destruct Default as [[den dminl dmaxl dru drl drn drs] dzx].
  cbn in Hon, Hdefault. subst en.
  unfold validator.ValidatePasswordPolicy. cbn.
  destruct (negb _);
    destruct (Z.eqb_spec minl 0); try destruct (Z.ltb_spec minl 0);
    cbn; destruct (maxl =? 0); cbn; lia.
Qed.

Lemma ValidatePasswordPolicy_min_length_positive_witness :
  let config := schema.mkPasswordPolicyConfiguration
                  (Std.mk true 0 64 false false false false) (Zx.mk false) in
  let Default := validator.DefaultPasswordPolicyConfiguration_inst in
  let r := validator.ValidatePasswordPolicy validator.IsBoolCountLessThanN_inst
             Default config schema.NewStructValidator in
  Std.Enabled (schema.Standard config) = true
  /\ 0 < Std.MinLength (schema.Standard Default)
  /\ (0 < Std.MinLength (schema.Standard (fst r))
      <-> 0 <= Std.MinLength (schema.Standard config)).
Proof.
  intros config Default r.
  split; [reflexivity | split; [reflexivity |]].
  exact (ValidatePasswordPolicy_min_length_positive
           validator.IsBoolCountLessThanN_inst Default config
           schema.NewStructValidator eq_refl eq_refl).
Defined.

(** X6.  [Standard.MaxLength] is never checked: whatever value it has
    (negative, or below [MinLength]), the errors pushed are the same, and a
    value other than 0 is kept as it is. *)
Theorem ValidatePasswordPolicy_max_length_unchecked
    (IsBoolCountLessThanN : Z -> bool -> list bool -> bool)
    (Default config : schema.PasswordPolicyConfiguration)
    (v : schema.StructValidator) (maxLength : Z) :
  let config' :=
    schema.with_Standard (Std.with_MaxLength maxLength (schema.Standard config))
      config in
  let r := validator.ValidatePasswordPolicy IsBoolCountLessThanN Default config v in
  let r' := validator.ValidatePasswordPolicy IsBoolCountLessThanN Default config' v in
  schema.Errors (snd r') = schema.Errors (snd r)
  /\ Std.MaxLength (schema.Standard (fst r'))
     = if Std.Enabled (schema.Standard config) && (maxLength =? 0)
       then Std.MaxLength (schema.Standard Default)
       else maxLength.
Proof.
  cbv zeta. split.
  - rewrite !ValidatePasswordPolicy_errors. reflexivity.
  - destruct config as [[en minl maxl ru rl rn rs] zx].
    unfold validator.ValidatePasswordPolicy, schema.with_Standard,
      Std.with_MaxLength, Std.with_MinLength.
    simpl.
    destruct en; simpl; [| reflexivity].
    destruct (minl =? 0); try destruct (minl <? 0);
      simpl; destruct (maxLength =? 0); reflexivity.
Qed.

(* --------------------------------------------------------------------- *)
(** ** OAuthRevocationPOST without a provider                              *)
(* --------------------------------------------------------------------- *)



(* --------------------------------------------------------------------- *)
(** ** handlerError and getRemoteIP                                        *)
(* --------------------------------------------------------------------- *)

Lemma getRemoteIP_with_header ctx hdr :
  fasthttp.XForwardedFor ctx = Some hdr ->
  server.getRemoteIP ctx = gostrings.Trim (server.beforeFirstComma hdr) " ".
Proof.
  intros Hhdr. unfold server.getRemoteIP. rewrite Hhdr. cbv zeta.
  rewrite Split_head.
  pose proof (Split_nonempty hdr ",") as Hne.
  destruct (gostrings.Split hdr ","); [congruence | reflexivity].
Qed.

Lemma TrimLeft_start s c :
  text.startsWithByte c (gostrings.TrimLeft s (String c "")) = false.
Proof.
  induction s as [|d s IH]; cbn; [reflexivity |].
  rewrite orb_false_r. destruct (Ascii.eqb d c) eqn:Hd; [exact IH |].
  cbn. exact Hd.
Qed.

Lemma TrimRight_prefix_start s cutset c :
  text.startsWithByte c s = false ->
  text.startsWithByte c (gostrings.TrimRight s cutset) = false.
Proof.
  destruct s as [|d s]; cbn; [reflexivity |]. intros Hd.
  destruct (gostrings.TrimRight s cutset); [|exact Hd].
  destruct (gostrings.inCutset d cutset); [reflexivity | exact Hd].
Qed.

Lemma TrimRight_end s c :
  text.endsWithByte c (gostrings.TrimRight s (String c "")) = false.
Proof.
  induction s as [|d s IH]; cbn [gostrings.TrimRight]; [reflexivity |].
  destruct (gostrings.TrimRight s (String c "")) as [|e r] eqn:Hr.
  - cbn. rewrite orb_false_r.
    destruct (Ascii.eqb d c) eqn:Hd; [reflexivity | cbn; exact Hd].
  - exact IH.
Qed.

Lemma TrimLeft_hasByte s cutset c :
  text.hasByte c s = false ->
  text.hasByte c (gostrings.TrimLeft s cutset) = false.
Proof.
  induction s as [|d s IH]; cbn; [reflexivity |]. intros Hs.
  apply orb_false_elim in Hs. destruct Hs as [Hd Hs].
  destruct (gostrings.inCutset d cutset); [now apply IH |].
  cbn. now rewrite Hd, Hs.
Qed.

Lemma TrimRight_hasByte s cutset c :
  text.hasByte c s = false ->
  text.hasByte c (gostrings.TrimRight s cutset) = false.
Proof.
  induction s as [|d s IH]; cbn [gostrings.TrimRight text.hasByte];
    [reflexivity |].
  intros Hs. apply orb_false_elim in Hs. destruct Hs as [Hd Hs].
  specialize (IH Hs).
  destruct (gostrings.TrimRight s cutset) as [|e r].
  - destruct (gostrings.inCutset d cutset); [reflexivity |].
    cbn. now rewrite Hd.
  - change (text.hasByte c (String d (String e r)))
      with (Ascii.eqb d c || text.hasByte c (String e r)).
    now rewrite Hd, IH.
Qed.

Lemma beforeFirstComma_no_comma s :
  text.hasByte "," (server.beforeFirstComma s) = false.
Proof.
  induction s as [|d s IH]; cbn; [reflexivity |].
  destruct (Ascii.eqb d ",") eqn:Hd; [reflexivity |].
  cbn. now rewrite Hd, IH.
Qed.

(** X8.  With an X-Forwarded-For header present, the address
    [getRemoteIP] returns never begins or ends with a space and never
    contains a comma. *)
Theorem getRemoteIP_trimmed_single_entry
    (ctx : fasthttp.RequestCtx) (hdr : string)
    (Hhdr : fasthttp.XForwardedFor ctx = Some hdr) :
  text.startsWithByte " " (server.getRemoteIP ctx) = false
  /\ text.endsWithByte " " (server.getRemoteIP ctx) = false
  /\ text.hasByte "," (server.getRemoteIP ctx) = false.
Proof.
  rewrite (getRemoteIP_with_header _ _ Hhdr). unfold gostrings.Trim.
  split; [| split].
  - apply TrimRight_prefix_start, TrimLeft_start.
  - apply TrimRight_end.
  - apply TrimRight_hasByte, TrimLeft_hasByte, beforeFirstComma_no_comma.
Qed.

Lemma getRemoteIP_trimmed_single_entry_witness :
  let ctx := fasthttp.mkRequestCtx fasthttp.GET "/" "/"
               (Some "  203.0.113.7 , 10.0.0.1") "10.0.0.2" in
  fasthttp.XForwardedFor ctx = Some "  203.0.113.7 , 10.0.0.1"
  /\ text.startsWithByte " " (server.getRemoteIP ctx) = false
  /\ text.endsWithByte " " (server.getRemoteIP ctx) = false
  /\ text.hasByte "," (server.getRemoteIP ctx) = false.
Proof.
  intros ctx. split; [reflexivity |].
  exact (getRemoteIP_trimmed_single_entry ctx "  203.0.113.7 , 10.0.0.1" eq_refl).
Defined.

Lemma beforeFirstComma_id s :
  text.hasByte "," s = false -> server.beforeFirstComma s = s.
Proof.
  induction s as [|d s IH]; cbn; [reflexivity |]. intros Hs.
  apply orb_false_elim in Hs. destruct Hs as [Hd Hs].
  now rewrite Hd, IH.
Qed.

Lemma TrimLeft_id s c :
  text.startsWithByte c s = false -> gostrings.TrimLeft s (String c "") = s.
Proof.
  destruct s as [|d s]; cbn; [reflexivity |]. intros Hd.
  now rewrite Hd.
Qed.

Lemma TrimRight_id s c :
  text.endsWithByte c s = false -> gostrings.TrimRight s (String c "") = s.
Proof.
  induction s as [|d s IH]; [reflexivity |].
  destruct s as [|e r].
  - cbn. intros Hd. now rewrite Hd.
  - intros Hs.
    change (text.endsWithByte c (String d (String e r)))
      with (text.endsWithByte c (String e r)) in Hs.
    specialize (IH Hs).
    change (gostrings.TrimRight (String d (String e r)) (String c ""))
      with (match gostrings.TrimRight (String e r) (String c "") with
            | EmptyString =>
                if gostrings.inCutset d (String c "") then EmptyString
                else String d EmptyString
            | String x y => String d (String x y)
            end).
    now rewrite IH.
Qed.

(** X9.  A header value without a comma and without a space at either end
    comes back verbatim as the client address, whatever bytes it holds, and
    is written into the trace line of every branch of the error handler. *)
Theorem getRemoteIP_echoes_header
    (ctx : fasthttp.RequestCtx) (hdr : string) (err : server.HandlerErr)
    (Hhdr : fasthttp.XForwardedFor ctx = Some hdr)
    (Hcomma : text.hasByte "," hdr = false)
    (Hstart : text.startsWithByte " " hdr = false)
    (Hend : text.endsWithByte " " hdr = false) :
  server.getRemoteIP ctx = hdr
  /\ exists before after,
       fst (server.handlerError ctx err) = before +:+ hdr +:+ after.
Proof.
  assert (Hip : server.getRemoteIP ctx = hdr).
  { rewrite (getRemoteIP_with_header _ _ Hhdr). unfold gostrings.Trim.
    rewrite (beforeFirstComma_id _ Hcomma), (TrimLeft_id _ _ Hstart).
    now apply TrimRight_id. }
  split; [exact Hip |].
  unfold server.handlerError. rewrite Hip.
  destruct err as [|[|]|]; cbn [fst]; eexists _, _; reflexivity.
Qed.

Lemma getRemoteIP_echoes_header_witness :
  let hdr := "unknown] forged entry [" in
  let ctx := fasthttp.mkRequestCtx fasthttp.GET "/" "/" (Some hdr) "10.0.0.2" in
  fasthttp.XForwardedFor ctx = Some hdr
  /\ text.hasByte "," hdr = false
  /\ text.startsWithByte " " hdr = false
  /\ text.endsWithByte " " hdr = false
  /\ server.getRemoteIP ctx = hdr
  /\ exists before after,
       fst (server.handlerError ctx server.ErrSmallBuffer)
       = before +:+ hdr +:+ after.
Proof.
  intros hdr ctx.
  split; [reflexivity |]. split; [reflexivity |].
  split; [reflexivity |]. split; [reflexivity |].
  exact (getRemoteIP_echoes_header ctx hdr server.ErrSmallBuffer
           eq_refl eq_refl eq_refl eq_refl).
Defined.

Lemma TrimLeft_only s c :
  text.onlyByte c s = true -> gostrings.TrimLeft s (String c "") = "".
Proof.
  induction s as [|d s IH]; cbn; [reflexivity |]. intros Hs.
  apply andb_prop in Hs. destruct Hs as [Hd Hs].
  rewrite Hd. cbn. now apply IH.
Qed.

(** X10.  When the header is present but holds nothing except spaces in
    front of its first comma (an empty header included), the client address
    is the empty string: the peer address of the connection is not used as
    a fallback. *)
Theorem getRemoteIP_blank_first_entry
    (ctx : fasthttp.RequestCtx) (hdr : string)
    (Hhdr : fasthttp.XForwardedFor ctx = Some hdr)
    (Hblank : text.onlyByte " " (server.beforeFirstComma hdr) = true) :
  server.getRemoteIP ctx = "".
Proof.
  rewrite (getRemoteIP_with_header _ _ Hhdr). unfold gostrings.Trim.
  now rewrite (TrimLeft_only _ _ Hblank).
Qed.

Lemma getRemoteIP_blank_first_entry_witness :
  let ctx := fasthttp.mkRequestCtx fasthttp.GET "/" "/"
               (Some "  ,198.51.100.7") "10.0.0.2" in
  fasthttp.XForwardedFor ctx = Some "  ,198.51.100.7"
  /\ text.onlyByte " " (server.beforeFirstComma "  ,198.51.100.7") = true
  /\ server.getRemoteIP ctx = "".
Proof.
  intros ctx. split; [reflexivity | split; [reflexivity |]].
  exact (getRemoteIP_blank_first_entry ctx "  ,198.51.100.7" eq_refl eq_refl).
Defined.

(** X11.  What the error handler sends back depends on the kind of error
    alone: two requests that differ in their headers, peer address, path or
    URI get the same message and status, and the status is 400, 408 or
    431. *)
Theorem handlerError_response_ignores_request
    (ctx ctx' : fasthttp.RequestCtx) (err : server.HandlerErr) :
  snd (server.handlerError ctx err) = snd (server.handlerError ctx' err)
  /\ In (snd (snd (server.handlerError ctx err)))
        [fasthttp.StatusBadRequest; fasthttp.StatusRequestTimeout;
         fasthttp.StatusRequestHeaderFieldsTooLarge].
Proof.
  destruct err as [|[|]|]; cbn; tauto.
Qed.

(* --------------------------------------------------------------------- *)
(** ** handlerNotFound                                                     *)
(* --------------------------------------------------------------------- *)











(* --------------------------------------------------------------------- *)
(** ** getHandler: which handlers are registered, and when                 *)
(* --------------------------------------------------------------------- *)

(** Case analysis on the registration a route of the table comes from;
    [tac] closes the goal for one registration. *)
Ltac route_cases tac :=
  repeat match goal with
    | H : In _ (_ ++ _) |- _ => apply in_app_or in H; destruct H as [H|H]
    | H : In _ (List.map _ _) |- _ =>
        apply in_map_iff in H; destruct H as [? [<- _]]; tac
    | H : In _ (if ?b then _ else _) |- _ => destruct b eqn:?
    | H : In _ (match ?o with Some _ => _ | None => _ end) |- _ =>
        destruct o eqn:?
    | H : In _ (_ :: _) |- _ => destruct H as [<- | H]; [tac |]
    | H : In _ [] |- _ => destruct H
    end.

Ltac find_route_bt := (left; reflexivity) + (right; find_route_bt).

Ltac find_segment_bt :=
  (apply in_or_app; left; cbn [In]; find_route_bt)
  + (apply in_or_app; right; find_segment_bt)
  + (cbn [In]; find_route_bt).

Section RegisteredHandlers.
Context {Request : Type}.
Variables (K : server.Consts) (ENVIRONMENT : string)
          (config : schema.Configuration)
          (providers : middlewares.Providers Request).

Abbreviation registered := (registry.registers K ENVIRONMENT config providers).
Abbreviation backend := (schema.AuthenticationBackend config).

Lemma reset_password_needs_enabled fn :
  In fn [server.ResetPasswordIdentityStart; server.ResetPasswordIdentityFinish;
         server.ResetPasswordPOST] ->
  registered (server.middleware (server.Func fn)) ->
  schema.DisableResetPassword backend = false
  /\ schema.CustomURL (schema.PasswordReset backend) = "".
Proof.
  intros Hfn [rt [Hin Heq]]. revert Hin Heq. routes_of_getRouter.
  intros Hin Heq.
  destruct Hfn as [<-|[<-|[<-|[]]]];
    route_cases ltac:(first
      [ discriminate Heq
      | match goal with
        | E : (negb _ && String.eqb _ _)%bool = true |- _ =>
            apply andb_prop in E; destruct E as [E1 E2];
            apply negb_true_iff in E1; apply String.eqb_eq in E2;
            split; assumption
        end ]).
Qed.

Lemma reset_password_registered fn :
  In fn [server.ResetPasswordIdentityStart; server.ResetPasswordIdentityFinish;
         server.ResetPasswordPOST] ->
  schema.DisableResetPassword backend = false ->
  schema.CustomURL (schema.PasswordReset backend) = "" ->
  registered (server.middleware (server.Func fn)).
Proof.
  intros Hfn Hdis Hurl. unfold registry.registers. routes_of_getRouter.
  rewrite Hdis, Hurl. cbn [negb andb String.eqb].
  destruct Hfn as [<-|[<-|[<-|[]]]];
    (eexists (router.mkRoute _ _ _); split; [find_segment_bt | reflexivity]).
Qed.

End RegisteredHandlers.

(** X15.  Each of the three password-reset handlers is registered exactly
    when password reset is not disabled and no custom reset URL is
    configured. *)
Theorem reset_password_handlers_iff
    {Request : Type} (K : server.Consts) (ENVIRONMENT : string)
    (config : schema.Configuration) (providers : middlewares.Providers Request) :
  let backend := schema.AuthenticationBackend config in
  let enabled :=
    schema.DisableResetPassword backend = false
    /\ schema.CustomURL (schema.PasswordReset backend) = "" in
  let registered fn :=
    registry.registers K ENVIRONMENT config providers
      (server.middleware (server.Func fn)) in
  (registered server.ResetPasswordIdentityStart <-> enabled)
  /\ (registered server.ResetPasswordIdentityFinish <-> enabled)
  /\ (registered server.ResetPasswordPOST <-> enabled).
Proof.
  cbv zeta.
  split; [| split];
    (split;
     [ apply reset_password_needs_enabled; cbn; tauto
     | intros [Hdis Hurl]; apply reset_password_registered;
       [cbn; tauto | exact Hdis | exact Hurl] ]).
Qed.

(** X16.  The profiling handler is registered exactly when
    [Server.EnablePprof] is set and the expvar handler exactly when
    [Server.EnableExpvars] is set; no other part of the configuration
    exposes them. *)
Theorem debug_handlers_iff
    {Request : Type} (K : server.Consts) (ENVIRONMENT : string)
    (config : schema.Configuration) (providers : middlewares.Providers Request) :
  (registry.registers K ENVIRONMENT config providers server.PprofHandler
   <-> schema.EnablePprof (schema.Server config) = true)
  /\ (registry.registers K ENVIRONMENT config providers server.ExpvarHandler
      <-> schema.EnableExpvars (schema.Server config) = true).
Proof.
  split; split.
  - intros [rt [Hin Heq]]. revert Hin Heq. routes_of_getRouter. intros Hin Heq.
    route_cases ltac:(first [discriminate Heq | reflexivity]).
  - intros Hon. unfold registry.registers. routes_of_getRouter. rewrite Hon.
    eexists (router.mkRoute _ _ _); split; [find_segment_bt | reflexivity].
  - intros [rt [Hin Heq]]. revert Hin Heq. routes_of_getRouter. intros Hin Heq.
    route_cases ltac:(first [discriminate Heq | reflexivity]).
  - intros Hon. unfold registry.registers. routes_of_getRouter. rewrite Hon.
    eexists (router.mkRoute _ _ _); split; [find_segment_bt | reflexivity].
Qed.

Ltac method_enabled :=
  cbn [server.methodDisabled];
  match goal with
  | E : negb _ = true |- _ => solve [apply negb_true_iff in E; exact E]
  | E : schema.DuoAPI _ = Some _ |- _ => solve [rewrite E; reflexivity]
  end.

(** X17.  A handler function of a second-factor block is registered, under
    [Require1FA], exactly when its method is not turned off: TOTP by
    [TOTP.Disable], WebAuthn by [Webauthn.Disable], Duo by a missing
    [DuoAPI] section. *)
Theorem second_factor_handlers_iff
    {Request : Type} (K : server.Consts) (ENVIRONMENT : string)
    (config : schema.Configuration) (providers : middlewares.Providers Request)
    (meth : core.Method2FA) (fn : server.HandlerFunc)
    (Hfn : In fn (registry.methodFuncs meth)) :
  registry.registers K ENVIRONMENT config providers
    (server.middleware (server.Require1FA (server.Func fn)))
  <-> server.methodDisabled config meth = false.
Proof.
  split.
  - intros [rt [Hin Heq]]. revert Hin Heq. routes_of_getRouter. intros Hin Heq.
    destruct meth; cbn [registry.methodFuncs In] in Hfn;
      repeat (destruct Hfn as [<-|Hfn];
              [route_cases ltac:(first [discriminate Heq | method_enabled]) |]);
      destruct Hfn.
  - intros Hen. unfold registry.registers. routes_of_getRouter.
    destruct meth; cbn [server.methodDisabled] in Hen;
      cbn [registry.methodFuncs In] in Hfn.
    + rewrite Hen. cbn [negb].
      repeat (destruct Hfn as [<-|Hfn];
              [eexists (router.mkRoute _ _ _);
               split; [find_segment_bt | reflexivity] |]);
      destruct Hfn.
    + rewrite Hen. cbn [negb].
      repeat (destruct Hfn as [<-|Hfn];
              [eexists (router.mkRoute _ _ _);
               split; [find_segment_bt | reflexivity] |]);
      destruct Hfn.
    + destruct (schema.DuoAPI config) as [duo|]; [|discriminate Hen].
      repeat (destruct Hfn as [<-|Hfn];
              [eexists (router.mkRoute _ _ _);
               split; [find_segment_bt | reflexivity] |]);
      destruct Hfn.
Qed.

Lemma second_factor_handlers_iff_witness :
  let config := server.sampleConfig false true None in
  In server.WebauthnAssertionGET (registry.methodFuncs core.WebAuthn)
  /\ (registry.registers server.sampleConsts "" config server.noProviders
        (server.middleware
           (server.Require1FA (server.Func server.WebauthnAssertionGET)))
      <-> server.methodDisabled config core.WebAuthn = false).
Proof.
  intros config.
  assert (Hfn : In server.WebauthnAssertionGET (registry.methodFuncs core.WebAuthn))
    by (cbn; tauto).
  split; [exact Hfn |].
  exact (second_factor_handlers_iff server.sampleConsts "" config
           server.noProviders core.WebAuthn server.WebauthnAssertionGET Hfn).
Defined.

(** X18.  Every Duo handler that is registered is built on one Duo client
    made from the [DuoAPI] section of the configuration (integration key,
    secret key, host name, empty user agent), and that client skips
    certificate verification exactly when the ENVIRONMENT variable equals
    the constant [dev]. *)
Theorem duo_client_from_configuration
    {Request : Type} (K : server.Consts) (ENVIRONMENT : string)
    (config : schema.Configuration) (providers : middlewares.Providers Request)
    (api : server.DuoAPI)
    (Hreg : registry.registers K ENVIRONMENT config providers
              (server.middleware (server.Require1FA (server.DuoPOST api)))
            \/ registry.registers K ENVIRONMENT config providers
                 (server.middleware (server.Require1FA (server.DuoDevicesGET api)))) :
  exists duo,
    schema.DuoAPI config = Some duo
    /\ api = server.NewDuoAPI (schema.IntegrationKey duo) (schema.SecretKey duo)
               (schema.Hostname duo) ""
               (String.eqb ENVIRONMENT (server.dev K)).
Proof.
  destruct Hreg as [[rt [Hin Heq]] | [rt [Hin Heq]]];
    revert Hin Heq; routes_of_getRouter; intros Hin Heq;
    route_cases ltac:(first
      [ discriminate Heq
      | cbn in Heq; injection Heq as <-;
        eexists; split; [reflexivity |];
        destruct (String.eqb ENVIRONMENT (server.dev K)); reflexivity ]).
Qed.

Lemma duo_client_from_configuration_witness :
  let duo := schema.mkDuoAPIConfiguration "api-0.duosecurity.example" "ikey" "skey"
               true in
  let config := server.sampleConfig false false (Some duo) in
  let api := server.NewDuoAPI "ikey" "skey" "api-0.duosecurity.example" "" true in
  (registry.registers server.sampleConsts "dev" config server.noProviders
     (server.middleware (server.Require1FA (server.DuoPOST api)))
   \/ registry.registers server.sampleConsts "dev" config server.noProviders
        (server.middleware (server.Require1FA (server.DuoDevicesGET api))))
  /\ exists duo',
       schema.DuoAPI config = Some duo'
       /\ api = server.NewDuoAPI (schema.IntegrationKey duo') (schema.SecretKey duo')
                  (schema.Hostname duo') ""
                  (String.eqb "dev" (server.dev server.sampleConsts)).
Proof.
  intros duo config api.
  assert (Hreg :
    registry.registers server.sampleConsts "dev" config server.noProviders
      (server.middleware (server.Require1FA (server.DuoPOST api)))
    \/ registry.registers server.sampleConsts "dev" config server.noProviders
         (server.middleware (server.Require1FA (server.DuoDevicesGET api)))).
  { left. unfold registry.registers.
    exists (router.POST "/api/secondfactor/duo"
              (server.middleware (server.Require1FA (server.DuoPOST api)))).
    split; [| reflexivity].
    vm_compute. find_route_bt. }
  split; [exact Hreg |].
  exact (duo_client_from_configuration server.sampleConsts "dev" config
           server.noProviders api Hreg).
Defined.

(** X19.  The OpenID Connect handlers that go through
    [NewHTTPToAutheliaHandlerAdaptor] (authorization, token, userinfo,
    introspection, revocation) are registered exactly when
    [providers.OpenIDConnect.Fosite] is not nil. *)
Theorem oidc_handlers_iff_provider
    {Request : Type} (K : server.Consts) (ENVIRONMENT : string)
    (config : schema.Configuration) (providers : middlewares.Providers Request)
    (fn : server.HTTPHandlerFunc) :
  (exists rt,
      In rt (router.routes (server.getRouter K ENVIRONMENT config providers))
      /\ registry.adaptorOf (router.routeHandler rt) = Some fn)
  <-> middlewares.Fosite (middlewares.OpenIDConnect providers) <> None.
Proof.
  split.
  - intros [rt [Hin Heq]]. revert Hin Heq. routes_of_getRouter. intros Hin Heq.
    route_cases ltac:(first [discriminate Heq | discriminate]).
  - intros Hset. routes_of_getRouter.
    destruct (middlewares.Fosite (middlewares.OpenIDConnect providers)) as [p|];
      [| congruence].
    cbv zeta.
    destruct fn;
      [ eexists (router.GET _ (server.middleware _))
      | eexists (router.POST _ (server.Middleware _ _))
      | eexists (router.GET _ (server.Middleware _ _))
      | eexists (router.POST _ (server.Middleware _ _))
      | eexists (router.POST _ (server.Middleware _ _)) ];
      (split; [find_segment_bt | reflexivity]).
Qed.



(* --------------------------------------------------------------------- *)
(** ** getHandler: CORS policies, /api/verify and the fallback             *)
(* --------------------------------------------------------------------- *)

(** X21.  A CORS policy that allows credentials takes its allowed origins
    from the configuration ([IdentityProviders.OIDC.CORS.AllowedOrigins])
    and from nowhere else: the policy with the built-in origin "*" never
    allows credentials. *)
Theorem cors_credentials_only_configured_origins
    {Request : Type} (K : server.Consts) (ENVIRONMENT : string)
    (config : schema.Configuration) (providers : middlewares.Providers Request)
    (rt : router.Route server.FastHandler) (policy : server.CORSPolicy)
    (origins : list string)
    (Hin : In rt (router.routes (server.getRouter K ENVIRONMENT config providers)))
    (Hpolicy : registry.policyOf (router.routeHandler rt) = Some policy)
    (Hcred : In (server.WithAllowCredentials true) policy)
    (Horigins : In (server.WithAllowedOrigins origins) policy) :
  origins
  = schema.AllowedOrigins
      (schema.CORS (schema.OIDC (schema.IdentityProviders config))).
Proof.
  revert Hin Hpolicy. routes_of_getRouter. intros Hin Hpolicy.
  route_cases ltac:(first
    [ discriminate Hpolicy
    | cbn in Hpolicy; injection Hpolicy as <-;
      cbn [In] in Hcred, Horigins;
      solve [ intuition (try discriminate; congruence) ] ]).
Qed.

Lemma cors_credentials_only_configured_origins_witness :
  let providers : middlewares.Providers unit :=
    middlewares.mkProviders
      (middlewares.mkOpenIDConnectProvider
         (Some (fosite.mkOAuth2Provider (fun _ : unit => None)))) in
  let config := server.sampleConfig false false None in
  let policy :=
    [server.WithAllowCredentials true;
     server.WithAllowedMethods ["OPTIONS"; "POST"];
     server.WithAllowedOrigins [];
     server.WithEnabled false] in
  let rt :=
    router.POST "/api/oidc/token"
      (server.Middleware policy
         (server.middleware
            (server.NewHTTPToAutheliaHandlerAdaptor server.OpenIDConnectTokenPOST))) in
  In rt (router.routes (server.getRouter server.sampleConsts "" config providers))
  /\ registry.policyOf (router.routeHandler rt) = Some policy
  /\ In (server.WithAllowCredentials true) policy
  /\ In (server.WithAllowedOrigins []) policy
  /\ [] = schema.AllowedOrigins
            (schema.CORS (schema.OIDC (schema.IdentityProviders config))).
Proof.
  intros providers config policy rt.
  assert (Hin : In rt (router.routes
                         (server.getRouter server.sampleConsts "" config providers)))
    by (vm_compute; find_route_bt).
  assert (Hcred : In (server.WithAllowCredentials true) policy)
    by (left; reflexivity).
  assert (Horigins : In (server.WithAllowedOrigins []) policy)
    by (right; right; left; reflexivity).
  split; [exact Hin |]. split; [reflexivity |].
  split; [exact Hcred |]. split; [exact Horigins |].
  exact (cors_credentials_only_configured_origins server.sampleConsts "" config
           providers rt policy [] Hin eq_refl Hcred Horigins).
Defined.

(** X22.  Every route served through a CORS middleware has its preflight:
    an OPTIONS route is registered for the same path with
    [HandleOPTIONS] of the very same policy. *)
Theorem cors_middleware_has_preflight
    {Request : Type} (K : server.Consts) (ENVIRONMENT : string)
    (config : schema.Configuration) (providers : middlewares.Providers Request)
    (rt : router.Route server.FastHandler) (policy : server.CORSPolicy)
    (next : server.FastHandler)
    (Hin : In rt (router.routes (server.getRouter K ENVIRONMENT config providers)))
    (Hhandler : router.routeHandler rt = server.Middleware policy next) :
  In (router.OPTIONS (router.routePath rt) (server.HandleOPTIONS policy))
     (router.routes (server.getRouter K ENVIRONMENT config providers)).
Proof.
  revert Hin Hhandler. routes_of_getRouter. intros Hin Hhandler.
  route_cases ltac:(first
    [ discriminate Hhandler
    | cbn in Hhandler; injection Hhandler as <- <-;
      cbv beta iota; find_segment_bt ]).
Qed.

Lemma cors_middleware_has_preflight_witness :
  let providers : middlewares.Providers unit :=
    middlewares.mkProviders
      (middlewares.mkOpenIDConnectProvider
         (Some (fosite.mkOAuth2Provider (fun _ : unit => None)))) in
  let config := server.sampleConfig false false None in
  let policy :=
    [server.WithAllowCredentials true;
     server.WithAllowedMethods ["OPTIONS"; "POST"];
     server.WithAllowedOrigins [];
     server.WithEnabled false] in
  let next :=
    server.middleware
      (server.NewHTTPToAutheliaHandlerAdaptor server.OAuthRevocationPOST) in
  let rt := router.POST "/api/oidc/revoke" (server.Middleware policy next) in
  In rt (router.routes (server.getRouter server.sampleConsts "" config providers))
  /\ router.routeHandler rt = server.Middleware policy next
  /\ In (router.OPTIONS "/api/oidc/revoke" (server.HandleOPTIONS policy))
        (router.routes (server.getRouter server.sampleConsts "" config providers)).
Proof.
  intros providers config policy next rt.
  assert (Hin : In rt (router.routes
                         (server.getRouter server.sampleConsts "" config providers)))
    by (vm_compute; find_route_bt).
  split; [exact Hin |]. split; [reflexivity |].
  exact (cors_middleware_has_preflight server.sampleConsts "" config providers
           rt policy next Hin eq_refl).
Defined.

(** X23.  /api/verify answers GET and HEAD with one and the same handler,
    [VerifyGET] built from the [AuthenticationBackend] section of the
    configuration, for every configuration and every value of the package
    constants. *)
Theorem verify_head_and_get_share_handler
    {Request : Type} (K : server.Consts) (ENVIRONMENT : string)
    (config : schema.Configuration) (providers : middlewares.Providers Request) :
  let h := server.middleware
             (server.VerifyGET (schema.AuthenticationBackend config)) in
  let routes := router.routes (server.getRouter K ENVIRONMENT config providers) in
  router.lookupRoute fasthttp.HEAD "/api/verify" routes = Some h
  /\ In (router.GET "/api/verify" h) routes
  /\ In (router.HEAD "/api/verify" h) routes.
Proof.
  cbv zeta. routes_of_getRouter. split; [| split].
  - rewrite !lookupRoute_app.
    rewrite (lookupRoute_other_method _ fasthttp.GET) by reflexivity.
    rewrite (lookupRoute_other_method _ fasthttp.GET) by reflexivity.
    reflexivity.
  - find_segment_bt.
  - find_segment_bt.
Qed.


(** X25.  The CORS policy around an adapted OpenID Connect handler is
    switched on by the endpoint name that belongs to that handler: token by
    [oidc.TokenEndpoint], userinfo by [oidc.UserinfoEndpoint],
    introspection by [oidc.IntrospectionEndpoint], revocation by
    [oidc.RevocationEndpoint], each looked up in
    [IdentityProviders.OIDC.CORS.Endpoints]. *)
Theorem cors_enabled_by_own_endpoint
    {Request : Type} (K : server.Consts) (ENVIRONMENT : string)
    (config : schema.Configuration) (providers : middlewares.Providers Request)
    (rt : router.Route server.FastHandler) (fn : server.HTTPHandlerFunc)
    (policy : server.CORSPolicy) (enabled : bool)
    (Hin : In rt (router.routes (server.getRouter K ENVIRONMENT config providers)))
    (Hfn : registry.adaptorOf (router.routeHandler rt) = Some fn)
    (Hpolicy : registry.policyOf (router.routeHandler rt) = Some policy)
    (Henabled : In (server.WithEnabled enabled) policy) :
  enabled
  = server.IsStringInSlice (registry.endpointOf K fn)
      (schema.Endpoints
         (schema.CORS (schema.OIDC (schema.IdentityProviders config)))).
Proof.
  revert Hin Hfn Hpolicy. routes_of_getRouter. intros Hin Hfn Hpolicy.
  route_cases ltac:(first
    [ discriminate Hfn
    | discriminate Hpolicy
    | cbn in Hfn, Hpolicy; injection Hfn as <-; injection Hpolicy as <-;
      cbn [In] in Henabled; cbn [registry.endpointOf];
      solve [ intuition (try discriminate; congruence) ] ]).
Qed.

Lemma cors_enabled_by_own_endpoint_witness :
  let providers : middlewares.Providers unit :=
    middlewares.mkProviders
      (middlewares.mkOpenIDConnectProvider
         (Some (fosite.mkOAuth2Provider (fun _ : unit => None)))) in
  let config := server.sampleConfig false false None in
  let policy :=
    [server.WithAllowCredentials true;
     server.WithAllowedMethods ["OPTIONS"; "GET"; "POST"];
     server.WithAllowedOrigins [];
     server.WithEnabled false] in
  let rt :=
    router.GET "/api/oidc/userinfo"
      (server.Middleware policy
         (server.middleware
            (server.NewHTTPToAutheliaHandlerAdaptor server.OpenIDConnectUserinfo))) in
  In rt (router.routes (server.getRouter server.sampleConsts "" config providers))
  /\ registry.adaptorOf (router.routeHandler rt) = Some server.OpenIDConnectUserinfo
  /\ registry.policyOf (router.routeHandler rt) = Some policy
  /\ In (server.WithEnabled false) policy
  /\ false
     = server.IsStringInSlice
         (registry.endpointOf server.sampleConsts server.OpenIDConnectUserinfo)
         (schema.Endpoints
            (schema.CORS (schema.OIDC (schema.IdentityProviders config)))).
Proof.
  intros providers config policy rt.
  assert (Hin : In rt (router.routes
                         (server.getRouter server.sampleConsts "" config providers)))
    by (vm_compute; find_route_bt).
  assert (Hen : In (server.WithEnabled false) policy)
    by (right; right; right; left; reflexivity).
  split; [exact Hin |]. split; [reflexivity |]. split; [reflexivity |].
  split; [exact Hen |].
  exact (cors_enabled_by_own_endpoint server.sampleConsts "" config providers
           rt server.OpenIDConnectUserinfo policy false Hin eq_refl eq_refl Hen).
Defined.

(** X26.  A route served through a CORS middleware is registered for a
    method its own policy allows, and the policy allows OPTIONS as well. *)
Theorem cors_policy_allows_route_method
    {Request : Type} (K : server.Consts) (ENVIRONMENT : string)
    (config : schema.Configuration) (providers : middlewares.Providers Request)
    (rt : router.Route server.FastHandler) (policy : server.CORSPolicy)
    (next : server.FastHandler) (methods : list string)
    (Hin : In rt (router.routes (server.getRouter K ENVIRONMENT config providers)))
    (Hhandler : router.routeHandler rt = server.Middleware policy next)
    (Hmethods : In (server.WithAllowedMethods methods) policy) :
  In (registry.methodName (router.routeMethod rt)) methods
  /\ In "OPTIONS" methods.
Proof.
  revert Hin Hhandler. routes_of_getRouter. intros Hin Hhandler.
  route_cases ltac:(first
    [ discriminate Hhandler
    | cbn in Hhandler; injection Hhandler as <- <-;
      cbn [In] in Hmethods;
      repeat match goal with
        | H : _ \/ _ |- _ => destruct H as [H|H]
        | H : False |- _ => destruct H
        | H : server.WithAllowedMethods _ = server.WithAllowedMethods _ |- _ =>
            injection H as <-
        | H : _ = server.WithAllowedMethods _ |- _ => discriminate H
        end;
      cbn; tauto ]).
Qed.

Lemma cors_policy_allows_route_method_witness :
  let providers : middlewares.Providers unit :=
    middlewares.mkProviders
      (middlewares.mkOpenIDConnectProvider
         (Some (fosite.mkOAuth2Provider (fun _ : unit => None)))) in
  let config := server.sampleConfig false false None in
  let policy :=
    [server.WithAllowCredentials true;
     server.WithAllowedMethods ["OPTIONS"; "GET"; "POST"];
     server.WithAllowedOrigins [];
     server.WithEnabled false] in
  let next :=
    server.middleware
      (server.NewHTTPToAutheliaHandlerAdaptor server.OpenIDConnectUserinfo) in
  let rt := router.POST "/api/oidc/userinfo" (server.Middleware policy next) in
  In rt (router.routes (server.getRouter server.sampleConsts "" config providers))
  /\ router.routeHandler rt = server.Middleware policy next
  /\ In (server.WithAllowedMethods ["OPTIONS"; "GET"; "POST"]) policy
  /\ In (registry.methodName (router.routeMethod rt)) ["OPTIONS"; "GET"; "POST"]
  /\ In "OPTIONS" ["OPTIONS"; "GET"; "POST"].
Proof.
  intros providers config policy next rt.
  assert (Hin : In rt (router.routes
                         (server.getRouter server.sampleConsts "" config providers)))
    by (vm_compute; find_route_bt).
  assert (Hm : In (server.WithAllowedMethods ["OPTIONS"; "GET"; "POST"]) policy)
    by (right; left; reflexivity).
  split; [exact Hin |]. split; [reflexivity |]. split; [exact Hm |].
  exact (cors_policy_allows_route_method server.sampleConsts "" config providers
           rt policy next ["OPTIONS"; "GET"; "POST"] Hin eq_refl Hm).
Defined.

(* --------------------------------------------------------------------- *)
(** ** handlerError: the trace line and the response agree                 *)
(* --------------------------------------------------------------------- *)

Lemma string_append_assoc (a b c : string) : (a +:+ b) +:+ c = a +:+ (b +:+ c).
Proof.
  induction a as [|x a IH]; [reflexivity |].
  change (String x ((a +:+ b) +:+ c) = String x (a +:+ (b +:+ c))).
  now rewrite IH.
Qed.

(** X27.  In every branch of the error handler the trace line ends by
    reporting the status code that is sent to the client. *)
Theorem handlerError_logs_status_sent
    (ctx : fasthttp.RequestCtx) (err : server.HandlerErr) :
  exists before,
    fst (server.handlerError ctx err)
    = before +:+ ". Response Code "
      +:+ fmt_d (snd (snd (server.handlerError ctx err))) +:+ ".".
Proof.
  destruct err as [|[|]|]; cbn [server.handlerError fst snd].
  - exists ("Request was too large to handle from client "
            +:+ server.getRemoteIP ctx).
    now rewrite string_append_assoc.
  - exists ("Request timeout occurred while handling from client "
            +:+ server.getRemoteIP ctx +:+ ": " +:+ fasthttp.RequestURI ctx).
    now rewrite !string_append_assoc.
  - exists ("An unknown error occurred while handling a request from client "
            +:+ server.getRemoteIP ctx +:+ ": " +:+ fasthttp.RequestURI ctx).
    now rewrite !string_append_assoc.
  - exists ("An unknown error occurred while handling a request from client "
            +:+ server.getRemoteIP ctx +:+ ": " +:+ fasthttp.RequestURI ctx).
    now rewrite !string_append_assoc.
Qed.
